(** * aispeak-project: the authentication and authorization core

    A shallow embedding of the Express application's auth code
    ([utils/token.ts], [middleware/authMiddleware.ts],
    [controllers/authController.ts], [routes/authRoute.ts]) together with
    the properties its specification states about it.

    Conventions.
    - A JavaScript object with scalar fields is a [gmap string jval]; a
      field that is [undefined] is a key that is absent.
    - A function that may throw returns a [result]; [try]/[catch] is a
      match on it.
    - The handlers are [async] but every one of them awaits its store
      calls in sequence, so a handler is a function from the request and
      the [users] table to an outcome and the new table.
    - The external packages (jsonwebtoken, bcrypt, the Postgres defaults
      behind supabase) are interfaces: type classes whose laws are the
      part of their contract the code relies on. *)

From Stdlib Require Import ZArith String Ascii List.
From stdpp Require Import base tactics option countable strings list gmap pretty.

Local Open Scope string_scope.
Local Set Warnings "-register-all".

(** ** JavaScript values *)

(** Scalars that occur in request bodies, token claims and table rows.
    Numbers are the integral ones (seconds since the epoch, counters). *)
Inductive jval : Type :=
  | JNull
  | JBool (b : bool)
  | JNum (n : Z)
  | JStr (s : string).

#[global] Instance jval_eq_dec : EqDecision jval.
Proof. solve_decision. Defined.

Definition jval_to_sum (v : jval) : unit + bool + Z + string :=
  match v with
  | JNull => inl (inl (inl tt))
  | JBool b => inl (inl (inr b))
  | JNum n => inl (inr n)
  | JStr s => inr s
  end.

Definition jval_of_sum (x : unit + bool + Z + string) : jval :=
  match x with
  | inl (inl (inl _)) => JNull
  | inl (inl (inr b)) => JBool b
  | inl (inr n) => JNum n
  | inr s => JStr s
  end.

#[global] Instance jval_countable : Countable jval.
Proof.
  refine (inj_countable' jval_to_sum jval_of_sum _).
  intros []; reflexivity.
Defined.

(** Response bodies nest objects and arrays and keep the order in which
    the fields were written. *)
Inductive json : Type :=
  | JVal (v : jval)
  | JObj (fields : list (string * json))
  | JArr (items : list json).

(** [!v] is [negb (truthy v)]; [None] is [undefined]. *)
Definition truthy (v : option jval) : bool :=
  match v with
  | None | Some JNull => false
  | Some (JBool b) => b
  | Some (JNum n) => bool_decide (n ≠ 0%Z)
  | Some (JStr s) => bool_decide (s ≠ "")
  end.

Definition truthy_str (s : option string) : bool :=
  match s with
  | None => false
  | Some s => bool_decide (s ≠ "")
  end.

(** [a || b] on optional strings. *)
Definition js_or (a b : option string) : option string :=
  if truthy_str a then a else b.

(** [a !== b]. *)
Definition strict_ne {A} `{EqDecision A} (a b : option A) : bool :=
  bool_decide (a ≠ b).

(** A computation that returns or throws an [Error] with a message. *)
Inductive result (A : Type) : Type :=
  | Ok (a : A)
  | Throw (message : string).
Arguments Ok {A} a.
Arguments Throw {A} message.

#[global] Instance result_ret : MRet result := fun _ a => Ok a.

#[global] Instance result_bind : MBind result := fun _ _ k r =>
  match r with
  | Ok a => k a
  | Throw m => Throw m
  end.

(** [s.split(" ")]: one more piece than there are spaces. *)
Fixpoint split (s : string) : list string :=
  match s with
  | EmptyString => [""]
  | String c r =>
      if bool_decide (c = " "%char) then "" :: split r
      else match split r with
           | x :: xs => String c x :: xs
           | [] => [String c ""]
           end
  end.

Fixpoint no_space (s : string) : bool :=
  match s with
  | EmptyString => true
  | String c r => bool_decide (c ≠ " "%char) && no_space r
  end.

(** Case folding as the [i] flag of a regular expression does it on
    the letters A to Z; every other byte is kept. *)
Definition lower_char (c : ascii) : ascii :=
  let n := N_of_ascii c in
  if (65 <=? n)%N && (n <=? 90)%N then ascii_of_N (n + 32) else c.

Fixpoint to_lower (s : string) : string :=
  match s with
  | EmptyString => EmptyString
  | String c r => String (lower_char c) (to_lower r)
  end.

(** ** The packages the code calls *)

(** Compact JWS serialisation with HS256, as jsonwebtoken uses it.
    [jws_sign k c] is the token for the claim set [c] under the key [k];
    [jws_open k t] checks the shape and the signature of [t] under [k] and
    returns the claim set. The laws idealise the MAC: a token opens under
    the key that made it and under no other key, and it is a non-empty
    run of base64url characters and dots. *)
Class Jws : Type := {
  jws_sign : string → gmap string jval → string;
  jws_open : string → string → result (gmap string jval);
  jws_open_sign : ∀ k c, jws_open k (jws_sign k c) = Ok c;
  jws_open_other_key : ∀ k k' c,
    k ≠ k' → ∃ m, jws_open k' (jws_sign k c) = Throw m;
  jws_sign_compact : ∀ k c,
    jws_sign k c ≠ "" ∧ no_space (jws_sign k c) = true
}.

(** bcrypt: an opaque hash and compare service; both reject with an
    [Error] on arguments they do not accept, and [compare] accepts no
    data that is not a string (a JSON body holds no [Buffer]). *)
Class Bcrypt : Type := {
  bcrypt_hash : jval → Z → result string;
  bcrypt_compare : jval → string → result bool;
  bcrypt_compare_string : ∀ data hash,
    (∀ s, data ≠ JStr s) → ∃ m, bcrypt_compare data hash = Throw m
}.

(** The column defaults of the [users] table: the generated [id] and the
    [created_at] timestamp of a new row. *)
Class Postgres : Type := {
  pg_new_id : list string → string;
  pg_timestamp : Z → string
}.

(** *** jsonwebtoken *)
Module jwt.
Section jwt.
Context `{Jws}.

(** The payload with the two time claims [jwt.sign] adds. *)
Definition stamped (payload : gmap string jval) (expiresIn timestamp : Z)
    : gmap string jval :=
  <["exp" := JNum (timestamp + expiresIn)]> (<["iat" := JNum timestamp]> payload).

(** A registered time claim, when present, must be a number. *)
Definition number_or_absent (payload : gmap string jval) (claim : string) : bool :=
  match payload !! claim with
  | Some (JNum _) | None => true
  | Some _ => false
  end.

(** [jwt.sign(payload, secret, { expiresIn })] at the clock reading
    [now] (seconds). The secret must have a value; [iat], [exp] and [nbf]
    must be numbers where the payload has them, and [exp] must not be
    there at all since [expiresIn] is given. The payload is copied, [iat]
    becomes [payload.iat || now] and [exp] is [iat + expiresIn]. The
    messages leave out the quotation marks of the package's. *)
Definition sign (payload : gmap string jval) (secret : option string)
    (expiresIn now : Z) : result string :=
  if negb (truthy_str secret) then Throw "secretOrPrivateKey must have a value"
  else if negb (number_or_absent payload "iat") then Throw "iat should be a number of seconds"
  else if negb (number_or_absent payload "exp") then Throw "exp should be a number of seconds"
  else if negb (number_or_absent payload "nbf") then Throw "nbf should be a number of seconds"
  else
    match payload !! "exp" with
    | Some _ =>
        Throw "Bad options.expiresIn option the payload already has an exp property."
    | None =>
        let timestamp :=
          match payload !! "iat" with
          | Some (JNum n) => if bool_decide (n = 0%Z) then now else n
          | _ => now
          end in
        Ok (jws_sign (default "" secret) (stamped payload expiresIn timestamp))
    end.

(** The [nbf] check of [jwt.verify]. *)
Definition not_before (payload : gmap string jval) (now : Z) : result unit :=
  match payload !! "nbf" with
  | None => Ok tt
  | Some (JNum nbf) => if bool_decide (now < nbf)%Z then Throw "jwt not active" else Ok tt
  | Some _ => Throw "invalid nbf value"
  end.

(** The [exp] check of [jwt.verify]: a token is expired from its [exp]
    instant on. *)
Definition not_expired (payload : gmap string jval) (now : Z) : result unit :=
  match payload !! "exp" with
  | None => Ok tt
  | Some (JNum exp) => if bool_decide (exp ≤ now)%Z then Throw "jwt expired" else Ok tt
  | Some _ => Throw "invalid exp value"
  end.

(** [jwt.verify(token, secret)] at the clock reading [now]. *)
Definition verify (token : string) (secret : option string) (now : Z)
    : result (gmap string jval) :=
  if bool_decide (token = "") then Throw "jwt must be provided"
  else if negb (truthy_str secret) then Throw "secret or public key must be provided"
  else
    payload ← jws_open (default "" secret) token;
    _ ← not_before payload now;
    _ ← not_expired payload now;
    mret payload.
End jwt.
End jwt.

(** ** Express: requests, responses and middleware *)

(** A [Set-Cookie] header as [cookie.serialize] receives it. *)
Record Cookie : Type := {
  c_name : string;
  c_value : string;
  c_httpOnly : bool;
  c_secure : bool;
  c_sameSite : string;
  c_maxAge : option Z;
  c_expires : option Z;
  c_path : string
}.

Record Response : Type := {
  status : Z;
  set_cookie : option Cookie;
  res_body : json
}.

(** [res.status(code).json({ ... })] *)
Definition json_response (code : Z) (fields : list (string * json)) : Response :=
  {| status := code; set_cookie := None; res_body := JObj fields |}.

Definition with_cookie (c : Cookie) (r : Response) : Response :=
  {| status := status r; set_cookie := Some c; res_body := res_body r |}.

Definition msg (s : string) : string * json := ("message", JVal (JStr s)).

(** The request as the handlers read it: [req.headers.authorization],
    the cookies [cookie.parse] finds in [req.headers.cookie], the parsed
    JSON [req.body], the [req.params] of the matched route and the
    [req.user] the authentication gate attaches. *)
Record Request : Type := {
  method : string;
  path : list string;
  authorization : option string;
  cookies : gmap string string;
  req_body : gmap string jval;
  params : gmap string string;
  user : option (gmap string jval)
}.

Definition set_user (u : gmap string jval) (req : Request) : Request :=
  {| method := method req; path := path req; authorization := authorization req;
     cookies := cookies req; req_body := req_body req; params := params req;
     user := Some u |}.

Definition set_params (ps : gmap string string) (req : Request) : Request :=
  {| method := method req; path := path req; authorization := authorization req;
     cookies := cookies req; req_body := req_body req; params := ps;
     user := user req |}.

(** What a middleware or handler does with a request: it ends the
    response, or it calls [next()]. *)
Inductive Outcome : Type :=
  | Respond (r : Response)
  | Next (req : Request).

(** What is outside the request: [process.env] after [dotenv.config()],
    the clock (seconds) and the verdict of the rate limiter on this
    request. *)
Record World : Type := {
  process_env : gmap string string;
  clock : Z;
  over_limit : bool
}.

(** ** The [users] table behind supabase

    The table is the list of its rows in insertion order. It answers
    every query (an [error] comes from [.single()] only) and checks
    nothing on insert beyond filling the column defaults. *)

Module types.
(** Modelled from the spec: the row type [User] of [types/User], which
    is not among the sources. It is the Identity of the spec's data model
    under the column names the controllers read and write: [password]
    holds the hash, and [created_at] is selected by [getUsers]. *)
Record User : Type := {
  id : string;
  email : string;
  password : string;
  is_admin : bool;
  created_at : string
}.
End types.
Abbreviation User := types.User.
Abbreviation id := types.id.
Abbreviation created_at := types.created_at.

Module supabase.
Section supabase.
Context `{Postgres}.

(** The [{ data, error }] pair every query resolves to. *)
Record PgResult (A : Type) : Type := { data : option A; error : option string }.
Arguments data {A} _.
Arguments error {A} _.

(** [.single()]: exactly one row, or an error. *)
Definition single (rows : list User) : PgResult User :=
  match rows with
  | [u] => {| data := Some u; error := None |}
  | _ => {| data := None;
            error := Some "JSON object requested, multiple (or no) rows returned" |}
  end.

(** How a filter or inserted value reads as Postgres text. *)
Definition text_of (v : jval) : string :=
  match v with
  | JStr s => s
  | JNum n => pretty n
  | JBool true => "true"
  | JBool false => "false"
  | JNull => "null"
  end.

(** [.eq(column, value)] on a text column. An [undefined] value is
    sent as a literal that is no generated id or stored email, so it
    selects no row. *)
Definition eq_filter (v : option jval) (col : string) : bool :=
  match v with
  | Some v => bool_decide (text_of v = col)
  | None => false
  end.

(** [from("users").select("*").eq(column, value)] *)
Definition select_eq (col : User → string) (v : option jval)
    (users : list User) : list User :=
  List.filter (fun u => eq_filter v (col u)) users.

(** [from("users").insert(newUser).select().single()] *)
Definition insert (new_email : jval) (new_password : string) (new_is_admin : bool)
    (now : Z) (users : list User) : PgResult User * list User :=
  let row := {| types.id := pg_new_id (id <$> users);
                types.email := text_of new_email;
                types.password := new_password;
                types.is_admin := new_is_admin;
                types.created_at := pg_timestamp now |} in
  ({| data := Some row; error := None |}, (users ++ [row])%list).

(** [from("users").delete().eq("id", value).select().single()] *)
Definition delete_eq_id (v : option jval) (users : list User)
    : PgResult User * list User :=
  (single (select_eq id v users),
   List.filter (fun u => negb (eq_filter v (id u))) users).
End supabase.
Arguments data {A} _.
Arguments error {A} _.
End supabase.

(** A row as the JavaScript object the client library returns. *)
Definition row_obj (u : User) : gmap string jval :=
  <["id" := JStr (id u)]>
    (<["email" := JStr (types.email u)]>
       (<["password" := JStr (types.password u)]>
          (<["is_admin" := JBool (types.is_admin u)]>
             (<["created_at" := JStr (created_at u)]> ∅)))).

Definition row_json (u : User) : json :=
  JObj [("id", JVal (JStr (id u))); ("email", JVal (JStr (types.email u)));
        ("password", JVal (JStr (types.password u)));
        ("is_admin", JVal (JBool (types.is_admin u)));
        ("created_at", JVal (JStr (created_at u)))].

(** [select("id, email, is_admin, created_at")] *)
Definition public_json (u : User) : json :=
  JObj [("id", JVal (JStr (id u))); ("email", JVal (JStr (types.email u)));
        ("is_admin", JVal (JBool (types.is_admin u)));
        ("created_at", JVal (JStr (created_at u)))].

(** [{ id, email, is_admin }], the object [login] passes to
    [generateAccessToken]. *)
Definition identity_obj (uid mail : string) (admin : bool) : gmap string jval :=
  <["id" := JStr uid]> (<["email" := JStr mail]> (<["is_admin" := JBool admin]> ∅)).

(** ** utils/token.ts *)
Module token.
Section token.
Context `{Jws}.

Definition JWT_SECRET (env : gmap string string) : option string :=
  env !! "JWT_SECRET".

Definition REFRESH_SECRET (env : gmap string string) : option string :=
  js_or (env !! "REFRESH_SECRET") (JWT_SECRET env).

Definition generateAccessToken (w : World) (user : gmap string jval) : result string :=
  jwt.sign user (JWT_SECRET (process_env w)) 900 (clock w).

(** [{ id: user.id }] *)
Definition id_only (user : gmap string jval) : gmap string jval :=
  match user !! "id" with
  | Some v => {[ "id" := v ]}
  | None => ∅
  end.

Definition generateRefreshToken (w : World) (user : gmap string jval) : result string :=
  jwt.sign (id_only user) (REFRESH_SECRET (process_env w)) 604800 (clock w).

Definition verifyRefreshToken (w : World) (token : string)
    : result (gmap string jval) :=
  jwt.verify token (REFRESH_SECRET (process_env w)) (clock w).
End token.
End token.

(** ** middleware/authMiddleware.ts *)
Module authMiddleware.
Section authMiddleware.
Context `{Jws}.

Definition JWT_SECRET (env : gmap string string) : option string :=
  env !! "JWT_SECRET".

(** The check the module runs when it is loaded. *)
Definition init (env : gmap string string) : result unit :=
  if negb (truthy_str (JWT_SECRET env)) then Throw "JWT_SECRET is not defined"
  else Ok tt.

Definition authenticate (w : World) (req : Request) : Outcome :=
  let authHeader := authorization req in
  if negb (truthy_str authHeader) then
    Respond (json_response 401 [msg "Unauthorized"])
  else
    let token := split (default "" authHeader) !! 1%nat in
    if negb (truthy_str token) then
      Respond (json_response 401 [msg "Unauthorized"])
    else
      match jwt.verify (default "" token) (JWT_SECRET (process_env w)) (clock w) with
      | Ok decoded => Next (set_user decoded req)
      | Throw _ => Respond (json_response 403 [msg "Invalid token"])
      end.

Definition requireAdmin (req : Request) : Outcome :=
  if negb (truthy (user req ≫= lookup "is_admin")) then
    Respond (json_response 403 [msg "Admin privileges required"])
  else Next req.

Definition requireOwnerOrAdmin (paramName : string) (req : Request) : Outcome :=
  let authUser := user req in
  let targetId := params req !! paramName in
  match authUser with
  | None => Respond (json_response 401 [msg "Unauthorized"])
  | Some authUser =>
      if strict_ne (authUser !! "id") (JStr <$> targetId)
         && negb (truthy (authUser !! "is_admin"))
      then Respond (json_response 403 [msg "Access denied"])
      else Next req
  end.
End authMiddleware.
End authMiddleware.

(** ** middleware/rateLimit.ts *)
Module rateLimit.
(** express-rate-limit keeps its counters outside the request; its
    verdict on this request is [over_limit]. *)
Definition authRateLimiter (w : World) (req : Request) : Outcome :=
  if over_limit w then
    Respond {| status := 429; set_cookie := None;
               res_body := JObj [msg "Too many attempts from this IP, please try again after 10 minutes."] |}
  else Next req.
End rateLimit.

(** ** controllers/authController.ts *)
Module authController.
Section authController.
Context `{Jws} `{Bcrypt} `{Postgres}.

Definition JWT_SECRET (env : gmap string string) : option string :=
  env !! "JWT_SECRET".

Definition REFRESH_SECRET (env : gmap string string) : option string :=
  js_or (env !! "REFRESH_SECRET") (JWT_SECRET env).

(** The two checks the module runs when it is loaded. *)
Definition init (env : gmap string string) : result unit :=
  if negb (truthy_str (JWT_SECRET env)) then
    Throw "JWT_SECRET is not defined in environment variables"
  else if negb (truthy_str (REFRESH_SECRET env)) then
    Throw "REFRESH_SECRET is not defined in environment variables"
  else Ok tt.

Definition internal_error (m : string) : Response :=
  json_response 500 [msg "Internal server error"; ("error", JVal (JStr m))].

(** The cookie both [register] and [login] set. *)
Definition refresh_cookie (w : World) (refreshToken : string) : Cookie :=
  {| c_name := "refreshToken";
     c_value := refreshToken;
     c_httpOnly := true;
     c_secure := bool_decide (process_env w !! "NODE_ENV" = Some "production");
     c_sameSite := "strict";
     c_maxAge := Some (7 * 24 * 60 * 60)%Z;
     c_expires := None;
     c_path := "/" |}.

(** [typeof is_admin === "boolean" ? is_admin : false] *)
Definition boolean_or_false (is_admin : option jval) : bool :=
  match is_admin with
  | Some (JBool b) => b
  | _ => false
  end.

Definition register (w : World) (req : Request) (users : list User)
    : Outcome * list User :=
  let email := req_body req !! "email" in
  let password := req_body req !! "password" in
  let is_admin := req_body req !! "is_admin" in
  if negb (truthy email) || negb (truthy password) then
    (Respond (json_response 400 [msg "Email and password are required"]), users)
  else
    let existingUser := supabase.data (supabase.single (supabase.select_eq types.email email users)) in
    match existingUser with
    | Some _ => (Respond (json_response 409 [msg "User already exists"]), users)
    | None =>
      match bcrypt_hash (default JNull password) 10 with
      | Throw m => (Respond (internal_error m), users)
      | Ok hashedPassword =>
        let '(res, users') :=
          supabase.insert (default JNull email) hashedPassword (boolean_or_false is_admin)
            (clock w) users in
        match supabase.error res with
        | Some e =>
            (Respond (json_response 500 [msg "Error creating user"; ("error", JVal (JStr e))]),
             users')
        | None =>
          match supabase.data res with
          | None => (Respond (internal_error "payload is required"), users')
          | Some data =>
            match
              accessToken ← token.generateAccessToken w (row_obj data);
              refreshToken ← token.generateRefreshToken w {[ "id" := JStr (id data) ]};
              mret (accessToken, refreshToken)
            with
            | Throw m => (Respond (internal_error m), users')
            | Ok (accessToken, refreshToken) =>
                (Respond
                   (with_cookie (refresh_cookie w refreshToken)
                      (json_response 201
                         [msg "User created successfully";
                          ("accessToken", JVal (JStr accessToken))])),
                 users')
            end
          end
        end
      end
    end.

Definition login (w : World) (req : Request) (users : list User)
    : Outcome * list User :=
  let email := req_body req !! "email" in
  let password := req_body req !! "password" in
  if negb (truthy email) || negb (truthy password) then
    (Respond (json_response 400 [msg "Email and password are required"]), users)
  else
    let res := supabase.single (supabase.select_eq types.email email users) in
    match supabase.error res, supabase.data res with
    | None, Some user =>
      match bcrypt_compare (default JNull password) (types.password user) with
      | Throw m => (Respond (internal_error m), users)
      | Ok false => (Respond (json_response 401 [msg "Invalid email or password"]), users)
      | Ok true =>
        match
          accessToken ← token.generateAccessToken w
                          (identity_obj (id user) (types.email user) (types.is_admin user));
          refreshToken ← token.generateRefreshToken w {[ "id" := JStr (id user) ]};
          mret (accessToken, refreshToken)
        with
        | Throw m => (Respond (internal_error m), users)
        | Ok (accessToken, refreshToken) =>
            (Respond
               (with_cookie (refresh_cookie w refreshToken)
                  (json_response 200
                     [msg "Login successful";
                      ("accessToken", JVal (JStr accessToken));
                      ("user", JObj [("id", JVal (JStr (id user)));
                                     ("email", JVal (JStr (types.email user)));
                                     ("is_admin", JVal (JBool (types.is_admin user)))])])),
             users)
        end
      end
    | _, _ => (Respond (json_response 401 [msg "Invalid email or password"]), users)
    end.

Definition data_json (data : option User) : json :=
  match data with
  | Some u => row_json u
  | None => JVal JNull
  end.

Definition deleteUser (w : World) (req : Request) (users : list User)
    : Outcome * list User :=
  let userId := params req !! "id" in
  let '(res, users') := supabase.delete_eq_id (JStr <$> userId) users in
  match supabase.error res with
  | Some e =>
      (Respond (json_response 500 [msg "Error deleting user"; ("error", JVal (JStr e))]),
       users')
  | None =>
      (Respond (json_response 200
                  [msg "User deleted successfully"; ("user", data_json (supabase.data res))]),
       users')
  end.

Definition logout (w : World) (req : Request) (users : list User)
    : Outcome * list User :=
  (Respond
     (with_cookie
        {| c_name := "refreshToken";
           c_value := "";
           c_httpOnly := true;
           c_secure := bool_decide (process_env w !! "NODE_ENV" = Some "production");
           c_sameSite := "strict";
           c_maxAge := None;
           c_expires := Some 0%Z;
           c_path := "/" |}
        (json_response 200 [msg "Logged out successfully"])),
   users).

Definition invalid_refresh (m : string) : Response :=
  json_response 403 [msg "Invalid refresh token"; ("error", JVal (JStr m))].

Definition refreshToken (w : World) (req : Request) (users : list User)
    : Outcome * list User :=
  let token := cookies req !! "refreshToken" in
  if negb (truthy_str token) then
    (Respond (json_response 401 [msg "No refresh token provided"]), users)
  else
    match token.verifyRefreshToken w (default "" token) with
    | Throw m => (Respond (invalid_refresh m), users)
    | Ok payload =>
      let res := supabase.single (supabase.select_eq id (payload !! "id") users) in
      match supabase.error res, supabase.data res with
      | None, Some user =>
        match token.generateAccessToken w (row_obj user) with
        | Throw m => (Respond (invalid_refresh m), users)
        | Ok accessToken =>
            (Respond (json_response 200 [("accessToken", JVal (JStr accessToken))]), users)
        end
      | _, _ => (Respond (json_response 401 [msg "Invalid refresh token"]), users)
      end
    end.

Definition getUsers (w : World) (req : Request) (users : list User)
    : Outcome * list User :=
  (Respond {| status := 200; set_cookie := None;
              res_body := JArr (public_json <$> users) |},
   users).

Definition getUser (w : World) (req : Request) (users : list User)
    : Outcome * list User :=
  let userId := params req !! "userId" in
  let res := supabase.single (supabase.select_eq id (JStr <$> userId) users) in
  match supabase.error res, supabase.data res with
  | None, Some data =>
      (Respond {| status := 200; set_cookie := None; res_body := public_json data |}, users)
  | _, _ => (Respond (json_response 404 [msg "User not found"]), users)
  end.

Definition deleteCurrentUser (w : World) (req : Request) (users : list User)
    : Outcome * list User :=
  if negb (truthy (user req ≫= lookup "id")) then
    (Respond (json_response 401 [msg "Unauthorized"]), users)
  else
    let '(res, users') := supabase.delete_eq_id (user req ≫= lookup "id") users in
    match supabase.error res with
    | Some e =>
        (Respond (json_response 500 [msg "Error deleting user"; ("error", JVal (JStr e))]),
         users')
    | None =>
        (Respond (json_response 200
                    [msg "User deleted successfully"; ("user", data_json (supabase.data res))]),
         users')
    end.
End authController.
End authController.

(** ** express.Router *)
Module express.
Definition Handler : Type := Request → list User → Outcome * list User.

(** A middleware that does not touch the table. *)
Definition pure (f : Request → Outcome) : Handler :=
  fun req users => (f req, users).

Inductive Segment : Type :=
  | Lit (s : string)
  | Param (name : string).

(** Match a route pattern against the segments of the path below the
    mount point and bind the named segments; a named segment takes one
    non-empty piece and keeps its spelling. [express.Router()] is made
    without options, so a literal segment matches in any letter case
    (the pattern is compiled with the [i] flag) and a slash at the end
    of the path is no segment. *)
Fixpoint match_path (pat : list Segment) (p : list string)
    : option (gmap string string) :=
  match pat, p with
  | [], [] => Some ∅
  | Lit s :: pat', x :: p' =>
      if bool_decide (to_lower s = to_lower x) then match_path pat' p' else None
  | Param name :: pat', x :: p' =>
      if bool_decide (x = "") then None
      else ps ← match_path pat' p'; Some (<[name := x]> ps)
  | _, _ => None
  end.

Inductive Layer : Type :=
  | Use (h : Handler)
  | Route (m : string) (pat : list Segment) (hs : list Handler).

(** [Route.prototype._handles_method] for a route added for the one
    method [m]: its own method, and for a [GET] route also [HEAD] (node
    then sends the status and the headers of the response without its
    body). *)
Definition handles_method (m : string) (method : string) : bool :=
  bool_decide (m = method) || (bool_decide (method = "HEAD") && bool_decide (m = "GET")).

(** The handlers of one route, each reached by the [next()] of the
    one before. *)
Fixpoint run_chain (hs : list Handler) (req : Request) (users : list User)
    : Outcome * list User :=
  match hs with
  | [] => (Next req, users)
  | h :: hs' =>
      match h req users with
      | (Respond r, users') => (Respond r, users')
      | (Next req', users') => run_chain hs' req' users'
      end
  end.

(** The layers of a router in the order they were added; [Next] at
    the end leaves the router. *)
Fixpoint dispatch (layers : list Layer) (req : Request) (users : list User)
    : Outcome * list User :=
  match layers with
  | [] => (Next req, users)
  | Use h :: rest =>
      match h req users with
      | (Respond r, users') => (Respond r, users')
      | (Next req', users') => dispatch rest req' users'
      end
  | Route m pat hs :: rest =>
      match (if handles_method m (method req) then match_path pat (path req) else None) with
      | Some ps =>
          match run_chain hs (set_params ps req) users with
          | (Respond r, users') => (Respond r, users')
          | (Next req', users') => dispatch rest (set_params (params req) req') users'
          end
      | None => dispatch rest req users
      end
  end.
End express.

(** ** routes/authRoute.ts *)
Module authRoute.
Section authRoute.
Context `{Jws} `{Bcrypt} `{Postgres}.
Import express.

(** The routes added before [router.use(authenticate)]. *)
Definition public_routes (w : World) : list Layer :=
  [ Route "POST" [Lit "register"]
      [pure (rateLimit.authRateLimiter w); authController.register w];
    Route "POST" [Lit "login"]
      [pure (rateLimit.authRateLimiter w); authController.login w] ].

(** The routes added after it. *)
Definition protected_routes (w : World) : list Layer :=
  [ Route "GET" [Lit "user"; Param "userId"]
      [pure (authMiddleware.requireOwnerOrAdmin "userId"); authController.getUser w];
    Route "GET" [Lit "refresh-token"] [authController.refreshToken w];
    Route "GET" [Lit "users"]
      [pure authMiddleware.requireAdmin; authController.getUsers w];
    Route "DELETE" [Lit "user"; Param "userId"]
      [pure authMiddleware.requireAdmin; authController.deleteUser w];
    Route "DELETE" [Lit "user"] [authController.deleteCurrentUser w];
    Route "POST" [Lit "logout"] [authController.logout w] ].

Definition router (w : World) : list Layer :=
  (public_routes w ++ Use (pure (authMiddleware.authenticate w)) :: protected_routes w)%list.

(** A request to [/auth/...] with [path] the segments after the mount
    point. *)
Definition handle (w : World) (req : Request) (users : list User)
    : Outcome * list User :=
  dispatch (router w) req users.
End authRoute.

(** The requests the two public routes take: a [POST] whose path is
    [register] or [login] in any letter case. *)
Definition is_public (req : Request) : bool :=
  bool_decide (method req = "POST")
  && (bool_decide (to_lower <$> path req = ["register"])
      || bool_decide (to_lower <$> path req = ["login"])).
End authRoute.

(** ** index.ts *)
Module index.
Section index.
Context `{Jws} `{Bcrypt} `{Postgres}.

(** The checks on the signing secrets that loading the modules runs,
    in import order: [authRoute] loads [authMiddleware], then
    [authController] (which loads [token]); a throw at load time ends the
    process before [app.listen]. The rest of the bootstrap (the supabase
    client, the express app) is outside the model. *)
Definition startup (env : gmap string string) : result unit :=
  _ ← authMiddleware.init env;
  authController.init env.
End index.
End index.

(** ** A router over any store

    [express.Router] once more, for handlers that work on a store other
    than the [users] table. Routes match as there: literal segments in
    any letter case, and [HEAD] through the [GET] routes. *)
Module routing.
Section routing.
Context {S : Type}.

Definition Handler : Type := Request → S → Outcome * S.

Definition pure (f : Request → Outcome) : Handler :=
  fun req s => (f req, s).

Inductive Layer : Type :=
  | Use (h : Handler)
  | Route (m : string) (pat : list express.Segment) (hs : list Handler).

Fixpoint run_chain (hs : list Handler) (req : Request) (s : S) : Outcome * S :=
  match hs with
  | [] => (Next req, s)
  | h :: hs' =>
      match h req s with
      | (Respond r, s') => (Respond r, s')
      | (Next req', s') => run_chain hs' req' s'
      end
  end.

Fixpoint dispatch (layers : list Layer) (req : Request) (s : S) : Outcome * S :=
  match layers with
  | [] => (Next req, s)
  | Use h :: rest =>
      match h req s with
      | (Respond r, s') => (Respond r, s')
      | (Next req', s') => dispatch rest req' s'
      end
  | Route m pat hs :: rest =>
      match (if express.handles_method m (method req) then express.match_path pat (path req)
             else None) with
      | Some ps =>
          match run_chain hs (set_params ps req) s with
          | (Respond r, s') => (Respond r, s')
          | (Next req', s') => dispatch rest (set_params (params req) req') s'
          end
      | None => dispatch rest req s
      end
  end.
End routing.
Arguments Handler S : clear implicits.
Arguments Layer S : clear implicits.
End routing.

(** ** routes/progressRoute.ts

    The router mounted at [/progress]. Its six handlers work on the
    [progress] table, which this model does not have: they are
    parameters, and the router says which requests reach them. *)
Module progressRoute.
(** [progressRateLimiter] of middleware/rateLimit.ts; a request passes
    one limiter only, and [over_limit] is its verdict. *)
Definition progressRateLimiter (w : World) (req : Request) : Outcome :=
  if over_limit w then
    Respond {| status := 429; set_cookie := None;
               res_body := JObj [msg "Too many requests from this IP, please try again after 2 minutes."] |}
  else Next req.

Section progressRoute.
Context `{Jws} {S : Type}.
Variables getProgress createProgress updateProgress deleteProgress
          getLeaderBoard getSimilarProgress : World → routing.Handler S.
Import express.

Definition router (w : World) : list (routing.Layer S) :=
  [ routing.Route "GET" [Lit "leaderboard"]
      [routing.pure (progressRateLimiter w); getLeaderBoard w];
    routing.Use (routing.pure (authMiddleware.authenticate w));
    routing.Route "GET" [Param "userId"]
      [routing.pure (progressRateLimiter w);
       routing.pure (authMiddleware.requireOwnerOrAdmin "userId"); getProgress w];
    routing.Route "POST" [Param "userId"]
      [routing.pure (progressRateLimiter w);
       routing.pure (authMiddleware.requireOwnerOrAdmin "userId"); createProgress w];
    routing.Route "PUT" [Param "userId"]
      [routing.pure (progressRateLimiter w);
       routing.pure authMiddleware.requireAdmin; updateProgress w];
    routing.Route "DELETE" [Param "userId"]
      [routing.pure (progressRateLimiter w);
       routing.pure authMiddleware.requireAdmin; deleteProgress w];
    routing.Route "GET" [Lit "similar"; Param "userId"]
      [routing.pure (progressRateLimiter w);
       routing.pure (authMiddleware.requireOwnerOrAdmin "userId"); getSimilarProgress w] ].

(** A request to [/progress/...] with [path] the segments after the
    mount point. *)
Definition handle (w : World) (req : Request) (s : S) : Outcome * S :=
  routing.dispatch (router w) req s.
End progressRoute.
End progressRoute.

(** ** controllers/progressController.ts: what is checked before the store

    The two handlers that take a body validate it before they touch the
    store; these are those checks. *)
Module progressController.
(** The fields [updateProgress] lets a body set. *)
Definition allowed : list string := ["current_level"; "level_xp"; "streak"; "xp"].

(** The loop of [updateProgress] over [allowed]: a field the body has
    must be a number and goes to [updates]; the first one that is not
    ends the request with 400. *)
Fixpoint collect (fields : list string) (body updates : gmap string jval) (has : bool)
    : Response + gmap string jval * bool :=
  match fields with
  | [] => inr (updates, has)
  | f :: rest =>
      match body !! f with
      | Some (JNum v) => collect rest body (<[f := JNum v]> updates) true
      | Some _ =>
          inl (json_response 400 [msg ("Invalid type for " ++ f ++ "; must be a number.")])
      | None => collect rest body updates has
      end
  end.

(** [updateProgress] up to its query: the 400 it answers, or the
    [updates] it sends to the store. *)
Definition updateProgress_updates (body : gmap string jval) : Response + gmap string jval :=
  match collect allowed body ∅ false with
  | inl r => inl r
  | inr (updates, has) =>
      if negb has then
        inl (json_response 400
               [msg "No valid fields to update. Provide at least one of current_level, level_xp, streak, xp."])
      else inr updates
  end.

(** [const { f = 0 } = req.body || {}]: the default stands in for a
    field that is absent, not for one that is [null]. *)
Definition field_or_zero (body : gmap string jval) (f : string) : jval :=
  default (JNum 0) (body !! f).

(** [createProgress] between its two queries: the 400 it answers, or the
    four numbers it inserts, which are also the [progress_vector]. *)
Definition createProgress_fields (body : gmap string jval) : Response + list Z :=
  match field_or_zero body "current_level", field_or_zero body "level_xp",
        field_or_zero body "streak", field_or_zero body "xp" with
  | JNum current_level, JNum level_xp, JNum streak, JNum xp =>
      inr [current_level; level_xp; streak; xp]
  | _, _, _, _ =>
      inl (json_response 400
             [msg "Invalid or missing fields. Provide numeric current_level, level_xp, streak, xp."])
  end.
End progressController.

(** ** Small implementations of the interfaces

    They make the model run on concrete requests and show that the laws
    of [Jws] can be met. The token of a claim set is the binary numeral
    of the code stdpp's [Countable] gives the pair of key and claims. *)
Module Reference.
Fixpoint pos_str (p : positive) : string :=
  match p with
  | xH => "h"
  | xO q => String "o"%char (pos_str q)
  | xI q => String "i"%char (pos_str q)
  end.

Fixpoint str_pos (s : string) : option positive :=
  match s with
  | EmptyString => None
  | String c r =>
      if bool_decide (c = "h"%char) then
        (if bool_decide (r = "") then Some xH else None)
      else if bool_decide (c = "o"%char) then xO <$> str_pos r
      else if bool_decide (c = "i"%char) then xI <$> str_pos r
      else None
  end.

Lemma str_pos_str p : str_pos (pos_str p) = Some p.
Proof. induction p as [q IH|q IH|]; simpl; rewrite ?IH; reflexivity. Qed.

Lemma pos_str_compact p : pos_str p ≠ "" ∧ no_space (pos_str p) = true.
Proof.
  split; [destruct p; discriminate|].
  induction p as [q IH|q IH|]; simpl; rewrite ?IH; reflexivity.
Qed.

Definition sign (k : string) (c : gmap string jval) : string :=
  pos_str (encode (k, c)).

Definition open (k : string) (t : string) : result (gmap string jval) :=
  match str_pos t ≫= decode with
  | Some (k', c) => if bool_decide (k' = k) then Ok c else Throw "invalid signature"
  | None => Throw "jwt malformed"
  end.

Lemma open_sign k c : open k (sign k c) = Ok c.
Proof.
  unfold open, sign. rewrite str_pos_str. simpl. rewrite decode_encode.
  rewrite bool_decide_eq_true_2; reflexivity.
Qed.

Lemma open_other_key k k' c : k ≠ k' → ∃ m, open k' (sign k c) = Throw m.
Proof.
  intros Hne. unfold open, sign. rewrite str_pos_str. simpl. rewrite decode_encode.
  rewrite bool_decide_eq_false_2 by assumption. eauto.
Qed.

#[export] Instance jws : Jws :=
  {| jws_sign := sign;
     jws_open := open;
     jws_open_sign := open_sign;
     jws_open_other_key := open_other_key;
     jws_sign_compact := fun k c => pos_str_compact (encode (k, c)) |}.

Definition compare (data : jval) (hash : string) : result bool :=
  match data with
  | JStr s => Ok (bool_decide (hash = "$2b$10$" ++ s))
  | _ => Throw "data and hash must be strings"
  end.

Lemma compare_string (data : jval) (hash : string) :
  (∀ s, data ≠ JStr s) → ∃ m, compare data hash = Throw m.
Proof. intros Hd. destruct data; simpl; eauto. by destruct (Hd s). Qed.

#[export] Instance bcrypt : Bcrypt :=
  {| bcrypt_hash := fun data _ =>
       match data with
       | JStr s => Ok ("$2b$10$" ++ s)
       | _ => Throw "data and salt arguments required"
       end;
     bcrypt_compare := compare;
     bcrypt_compare_string := compare_string |}.

#[export] Instance postgres : Postgres :=
  {| pg_new_id := fun ids => "user-" ++ pretty (length ids);
     pg_timestamp := fun now => pretty now |}.
End Reference.

(** ** Vocabulary of the properties

    Responses, claim sets and sample requests the statements below refer
    to. *)

Definition unauthorized : Response := json_response 401 [msg "Unauthorized"].
Definition invalid_token : Response := json_response 403 [msg "Invalid token"].


Definition invalid_credentials : Response :=
  json_response 401 [msg "Invalid email or password"].

(** The claims of a refresh token issued for [uid] at [now]. *)
Definition refresh_claims (uid : string) (now : Z) : gmap string jval :=
  jwt.stamped {[ "id" := JStr uid ]} 604800 now.

(** The row [insert] adds for a registration. *)
Definition registered_row `{Postgres} (w : World) (mail hashed : string) (admin : bool)
    (users : list User) : User :=
  {| types.id := pg_new_id (id <$> users);
     types.email := mail;
     types.password := hashed;
     types.is_admin := admin;
     types.created_at := pg_timestamp (clock w) |}.

(** The 201 response of [register]. *)
Definition created (w : World) (accessToken refreshToken : string) : Response :=
  with_cookie (authController.refresh_cookie w refreshToken)
    (json_response 201
       [msg "User created successfully"; ("accessToken", JVal (JStr accessToken))]).

(** The request that replays a token as a bearer credential. *)
Definition bearer_request (m : string) (p : list string) (tok : string) : Request :=
  {| method := m; path := p; authorization := Some ("Bearer " ++ tok);
     cookies := ∅; req_body := ∅; params := ∅; user := None |}.

(** A request with a JSON body and no credential. *)
Definition json_request (m : string) (p : list string) (body : gmap string jval) : Request :=
  {| method := m; path := p; authorization := None; cookies := ∅;
     req_body := body; params := ∅; user := None |}.

(** A running server, used to evaluate the model. *)
Definition example_world : World :=
  {| process_env := {[ "JWT_SECRET" := "s3cret" ]}; clock := 1000; over_limit := false |}.

(** A server with a refresh secret of its own. *)
Definition two_secret_world : World :=
  {| process_env := {[ "JWT_SECRET" := "s3cret"; "REFRESH_SECRET" := "r3fresh" ]};
     clock := 1000; over_limit := false |}.

(** The same server at a later clock reading. *)
Definition at_time (now : Z) : World :=
  {| process_env := process_env example_world; clock := now; over_limit := false |}.

Definition alice : User :=
  {| types.id := "u1"; types.email := "a@x.com"; types.password := "$2b$10$right";
     types.is_admin := false; types.created_at := "2025-01-01T00:00:00Z" |}.

(** The access token the server issues for an identity at [now]. *)
Definition access_token_for (uid mail : string) (admin : bool) (now : Z) : string :=
  jws_sign (Jws := Reference.jws) "s3cret" (jwt.stamped (identity_obj uid mail admin) 900 now).

(** A [GET /auth/refresh-token] with the refresh cookie issued for
    [u1] at 1000 and, optionally, a bearer credential. *)
Definition refresh_request (auth : option string) : Request :=
  {| method := "GET"; path := ["refresh-token"]; authorization := auth;
     cookies := {[ "refreshToken" :=
                  jws_sign (Jws := Reference.jws) "s3cret" (refresh_claims "u1" 1000) ]};
     req_body := ∅; params := ∅; user := None |}.

(** A stand-in for a handler of the progress router: it answers with
    [code] and counts the call in the store. *)
Definition counting (code : Z) : World → routing.Handler nat :=
  fun _ _ n => (Respond (json_response code []), S n).

(** Responses and predicates of the further properties. *)

Definition admin_required : Response :=
  json_response 403 [msg "Admin privileges required"].


Definition user_deleted (u : User) : Response :=
  json_response 200 [msg "User deleted successfully"; ("user", row_json u)].

Definition no_refresh_token : Response := json_response 401 [msg "No refresh token provided"].

Definition invalid_refresh_token : Response := json_response 401 [msg "Invalid refresh token"].


Definition user_exists : Response := json_response 409 [msg "User already exists"].

Definition too_many_attempts : Response :=
  {| status := 429; set_cookie := None;
     res_body := JObj [msg "Too many attempts from this IP, please try again after 10 minutes."] |}.

(** The 200 response of [login]. *)
Definition logged_in (w : World) (u : User) (accessToken refreshToken : string) : Response :=
  with_cookie (authController.refresh_cookie w refreshToken)
    (json_response 200
       [msg "Login successful"; ("accessToken", JVal (JStr accessToken));
        ("user", JObj [("id", JVal (JStr (id u)));
                       ("email", JVal (JStr (types.email u)));
                       ("is_admin", JVal (JBool (types.is_admin u)))])]).

(** A handler keeps [Inv] on the table and answers only responses that
    are [Good]. *)
Definition handler_keeps (Inv : list User → Prop) (Good : Response → Prop)
    (h : express.Handler) : Prop :=
  ∀ req users, Inv users →
    Inv (snd (h req users)) ∧ ∀ r, fst (h req users) = Respond r → Good r.

Definition layer_keeps (Inv : list User → Prop) (Good : Response → Prop)
    (l : express.Layer) : Prop :=
  match l with
  | express.Use h => handler_keeps Inv Good h
  | express.Route _ _ hs => Forall (handler_keeps Inv Good) hs
  end.

(** What every cookie of the auth router looks like: the refresh cookie
    of a 200 or 201, either carrying a token for seven days or cleared. *)
Definition refresh_cookie_only (w : World) (r : Response) : Prop :=
  ∀ c, set_cookie r = Some c →
    (status r = 200%Z ∨ status r = 201%Z) ∧
    c_name c = "refreshToken" ∧ c_httpOnly c = true ∧ c_sameSite c = "strict" ∧
    c_path c = "/" ∧
    c_secure c = bool_decide (process_env w !! "NODE_ENV" = Some "production") ∧
    ((c_value c ≠ "" ∧ c_maxAge c = Some 604800%Z ∧ c_expires c = None)
     ∨ (c_value c = "" ∧ c_maxAge c = None ∧ c_expires c = Some 0%Z)).

(** The three ways a request leaves the table. *)
Definition table_effect (req : Request) (users users' : list User) : Prop :=
  users' = users
  ∨ (method req = "POST" ∧ to_lower <$> path req = ["register"]
     ∧ ∃ row, users' = (users ++ [row])%list)
  ∨ (method req = "DELETE"
     ∧ ∃ v, users' = List.filter (fun u => negb (supabase.eq_filter v (id u))) users).

Definition too_many_requests : Response :=
  {| status := 429; set_cookie := None;
     res_body :=
       JObj [msg "Too many requests from this IP, please try again after 2 minutes."] |}.

(** Every path through a handler ends the response. *)
Definition answers {S : Type} (h : World → routing.Handler S) : Prop :=
  ∀ w req s, ∃ r s', h w req s = (Respond r, s').


Definition no_valid_fields : Response :=
  json_response 400
    [msg "No valid fields to update. Provide at least one of current_level, level_xp, streak, xp."].

Definition invalid_type (f : string) : Response :=
  json_response 400 [msg ("Invalid type for " ++ f ++ "; must be a number.")].

Definition invalid_or_missing : Response :=
  json_response 400
    [msg "Invalid or missing fields. Provide numeric current_level, level_xp, streak, xp."].

(** A field is absent or a number. *)
Definition absent_or_number (body : gmap string jval) (f : string) : Prop :=
  body !! f = None ∨ ∃ n, body !! f = Some (JNum n).

(** * Properties *)

(** ** Facts about the helpers *)

Lemma truthy_str_Some (s : string) : truthy_str (Some s) = true ↔ s ≠ "".
Proof. simpl. rewrite bool_decide_eq_true. reflexivity. Qed.

Lemma split_no_space (s : string) : no_space s = true → split s = [s].
Proof.
  induction s as [|c r IH]; simpl; [reflexivity|].
  intros [Hc Hr]%andb_prop. apply bool_decide_eq_true in Hc.
  rewrite bool_decide_eq_false_2 by assumption.
  rewrite (IH Hr). reflexivity.
Qed.

Lemma split_app_space (a b : string) :
  no_space a = true → split (a ++ " " ++ b) = a :: split b.
Proof.
  induction a as [|c r IH]; simpl; [reflexivity|].
  intros [Hc Hr]%andb_prop. apply bool_decide_eq_true in Hc.
  rewrite bool_decide_eq_false_2 by assumption.
  rewrite (IH Hr). reflexivity.
Qed.

(** The second piece of [scheme ++ " " ++ t] is [t]. *)
Lemma split_scheme_token (scheme t : string) :
  no_space scheme = true → no_space t = true →
  split (scheme ++ " " ++ t) !! 1%nat = Some t.
Proof.
  intros Hs Ht. rewrite (split_app_space _ _ Hs), (split_no_space _ Ht). reflexivity.
Qed.

Section jwt_facts.
Context `{Jws}.

Lemma sign_plain payload k expiresIn now :
  k ≠ "" →
  payload !! "nbf" = None → payload !! "exp" = None → payload !! "iat" = None →
  jwt.sign payload (Some k) expiresIn now
  = Ok (jws_sign k (jwt.stamped payload expiresIn now)).
Proof.
  intros Hk Hn He Hi. unfold jwt.sign, jwt.number_or_absent.
  rewrite (proj2 (truthy_str_Some k) Hk). simpl.
  rewrite Hn, He, Hi. reflexivity.
Qed.

Lemma stamped_exp payload expiresIn now :
  jwt.stamped payload expiresIn now !! "exp" = Some (JNum (now + expiresIn)).
Proof. unfold jwt.stamped. apply lookup_insert_eq. Qed.

Lemma stamped_nbf payload expiresIn now :
  payload !! "nbf" = None → jwt.stamped payload expiresIn now !! "nbf" = None.
Proof. intros Hn. unfold jwt.stamped. rewrite !lookup_insert_ne by discriminate. exact Hn. Qed.

Lemma stamped_other payload expiresIn now (key : string) :
  key ≠ "exp" → key ≠ "iat" →
  jwt.stamped payload expiresIn now !! key = payload !! key.
Proof. intros H1 H2. unfold jwt.stamped. rewrite !lookup_insert_ne by congruence. reflexivity. Qed.

(** A token opens under the key that signed it until its expiry. *)
Lemma verify_signed payload k expiresIn now now' :
  k ≠ "" → payload !! "nbf" = None → (now' < now + expiresIn)%Z →
  jwt.verify (jws_sign k (jwt.stamped payload expiresIn now)) (Some k) now'
  = Ok (jwt.stamped payload expiresIn now).
Proof.
  intros Hk Hn Hlt. unfold jwt.verify.
  rewrite bool_decide_eq_false_2 by apply jws_sign_compact.
  rewrite (proj2 (truthy_str_Some k) Hk). simpl.
  rewrite jws_open_sign. unfold jwt.not_before, jwt.not_expired. simpl.
  rewrite (stamped_nbf _ _ _ Hn), stamped_exp. simpl.
  rewrite bool_decide_eq_false_2 by lia. reflexivity.
Qed.

Lemma verify_expired payload k expiresIn now now' :
  k ≠ "" → payload !! "nbf" = None → (now + expiresIn ≤ now')%Z →
  jwt.verify (jws_sign k (jwt.stamped payload expiresIn now)) (Some k) now'
  = Throw "jwt expired".
Proof.
  intros Hk Hn Hle. unfold jwt.verify.
  rewrite bool_decide_eq_false_2 by apply jws_sign_compact.
  rewrite (proj2 (truthy_str_Some k) Hk). simpl.
  rewrite jws_open_sign. unfold jwt.not_before, jwt.not_expired. simpl.
  rewrite (stamped_nbf _ _ _ Hn), stamped_exp. simpl.
  rewrite bool_decide_eq_true_2 by lia. reflexivity.
Qed.

(** Under any other key it does not open at all. *)
Lemma verify_other_key c k secret now' :
  secret ≠ Some k → ∃ m, jwt.verify (jws_sign k c) secret now' = Throw m.
Proof.
  intros Hne. unfold jwt.verify.
  rewrite bool_decide_eq_false_2 by apply jws_sign_compact.
  destruct (truthy_str secret) eqn:Hs; simpl; [|eauto].
  destruct secret as [k'|]; [|discriminate]. simpl.
  destruct (jws_open_other_key k k' c) as [m Hm]; [congruence|].
  rewrite Hm. simpl. eauto.
Qed.
End jwt_facts.

(** ** Start-up and the two secrets *)

Lemma startup_running (env : gmap string string) :
  index.startup env = Ok tt ↔ ∃ k, env !! "JWT_SECRET" = Some k ∧ k ≠ "".
Proof.
  unfold index.startup, authMiddleware.init, authController.init,
    authMiddleware.JWT_SECRET, authController.REFRESH_SECRET,
    authController.JWT_SECRET, js_or.
  destruct (env !! "JWT_SECRET") as [k|] eqn:Hk; simpl.
  - destruct (decide (k = "")) as [->|Hne]; simpl.
    + split; [discriminate|]. intros (k & [= <-] & Hk'). congruence.
    + rewrite (bool_decide_eq_true_2 _ Hne). simpl.
      split; [eauto|intros _].
      destruct (truthy_str (env !! "REFRESH_SECRET")) eqn:Hr; simpl.
      * rewrite Hr. reflexivity.
      * rewrite (bool_decide_eq_true_2 _ Hne). reflexivity.
  - split; [discriminate|]. intros (k & [=] & _).
Qed.

Lemma refresh_secret_fallback (env : gmap string string) :
  truthy_str (env !! "REFRESH_SECRET") = false →
  token.REFRESH_SECRET env = token.JWT_SECRET env.
Proof. intros Hr. unfold token.REFRESH_SECRET, js_or. rewrite Hr. reflexivity. Qed.

Lemma refresh_secret_own (env : gmap string string) (r : string) :
  env !! "REFRESH_SECRET" = Some r → r ≠ "" → token.REFRESH_SECRET env = Some r.
Proof.
  intros Hr Hne. unfold token.REFRESH_SECRET, js_or. rewrite Hr.
  rewrite (proj2 (truthy_str_Some r) Hne). reflexivity.
Qed.

(** The outcome of start-up is a function of the access secret. *)
Lemma startup_reads_access_secret_only (env1 env2 : gmap string string) :
  env1 !! "JWT_SECRET" = env2 !! "JWT_SECRET" → index.startup env1 = index.startup env2.
Proof.
  intros Heq. destruct (truthy_str (env2 !! "JWT_SECRET")) eqn:Ht.
  - destruct (env2 !! "JWT_SECRET") as [k|] eqn:Hk; [|discriminate].
    apply truthy_str_Some in Ht.
    rewrite (proj2 (startup_running env1)), (proj2 (startup_running env2)); eauto.
  - unfold index.startup, authMiddleware.init, authMiddleware.JWT_SECRET.
    rewrite Heq, Ht. reflexivity.
Qed.

(** C7, as the code has it: start-up aborts exactly when the access
    secret is absent or empty. An absent refresh secret never aborts
    it: the refresh secret then is the access secret, and removing the
    refresh secret from the configuration does not change whether
    start-up goes through; a refresh secret that is set is used as it
    is. *)
Theorem startup_aborts_iff_no_access_secret (env : gmap string string) :
  (index.startup env = Ok tt ↔ ∃ k, env !! "JWT_SECRET" = Some k ∧ k ≠ "") ∧
  (truthy_str (env !! "JWT_SECRET") = false →
     index.startup env = Throw "JWT_SECRET is not defined") ∧
  (index.startup env = Ok tt → truthy_str (env !! "REFRESH_SECRET") = false →
     token.REFRESH_SECRET env = env !! "JWT_SECRET") ∧
  (∀ r, env !! "REFRESH_SECRET" = Some r → r ≠ "" →
     token.REFRESH_SECRET env = Some r) ∧
  index.startup (delete "REFRESH_SECRET" env) = index.startup env.
Proof.
  split; [apply startup_running|]. split; [|split; [|split]].
  - intros Hk. unfold index.startup, authMiddleware.init, authMiddleware.JWT_SECRET.
    rewrite Hk. reflexivity.
  - intros _. apply refresh_secret_fallback.
  - apply refresh_secret_own.
  - apply startup_reads_access_secret_only. by rewrite lookup_delete_ne.
Qed.

(** ** Issuing and verifying access tokens *)

Section access_tokens.
Context `{Jws}.

Lemma generateAccessToken_plain (w : World) (k : string) (payload : gmap string jval) :
  process_env w !! "JWT_SECRET" = Some k → k ≠ "" →
  payload !! "nbf" = None → payload !! "exp" = None → payload !! "iat" = None →
  token.generateAccessToken w payload = Ok (jws_sign k (jwt.stamped payload 900 (clock w))).
Proof.
  intros Hk Hne Hn He Hi. unfold token.generateAccessToken, token.JWT_SECRET.
  rewrite Hk. apply sign_plain; assumption.
Qed.

(** The gate on a well-formed bearer header. *)
Lemma authenticate_bearer (w : World) (req : Request) (tok : string) :
  authorization req = Some ("Bearer " ++ tok) → tok ≠ "" → no_space tok = true →
  authMiddleware.authenticate w req =
    match jwt.verify tok (authMiddleware.JWT_SECRET (process_env w)) (clock w) with
    | Ok decoded => Next (set_user decoded req)
    | Throw _ => Respond (json_response 403 [msg "Invalid token"])
    end.
Proof.
  intros Hh Hne Hns. unfold authMiddleware.authenticate. rewrite Hh.
  change (truthy_str (Some ("Bearer " ++ tok))) with true.
  cbv beta iota delta [negb default from_option Datatypes.id].
  pose proof (split_scheme_token "Bearer" tok eq_refl Hns) as Hs.
  change ("Bearer" ++ " " ++ tok) with ("Bearer " ++ tok) in Hs. rewrite Hs.
  cbv beta iota delta [default from_option Datatypes.id]. rewrite (proj2 (truthy_str_Some tok) Hne). reflexivity.
Qed.

(** C8: an access token issued for an identity verifies under the same
    access secret at every instant before its expiry, and the claims it
    returns carry the identity's [id], [email] and [is_admin]; the
    authentication gate accepts it as a bearer token and attaches those
    claims. *)
Theorem access_token_roundtrip (w : World) (uid mail : string) (admin : bool) (now' : Z) :
  index.startup (process_env w) = Ok tt →
  (now' < clock w + 900)%Z →
  ∃ tok claims,
    token.generateAccessToken w (identity_obj uid mail admin) = Ok tok ∧
    jwt.verify tok (authMiddleware.JWT_SECRET (process_env w)) now' = Ok claims ∧
    claims !! "id" = Some (JStr uid) ∧
    claims !! "email" = Some (JStr mail) ∧
    claims !! "is_admin" = Some (JBool admin) ∧
    ∀ w' req,
      process_env w' = process_env w → clock w' = now' →
      authorization req = Some ("Bearer " ++ tok) →
      authMiddleware.authenticate w' req = Next (set_user claims req).
Proof.
  intros (k & Hk & Hne)%startup_running Hlt.
  exists (jws_sign k (jwt.stamped (identity_obj uid mail admin) 900 (clock w))),
         (jwt.stamped (identity_obj uid mail admin) 900 (clock w)).
  assert (Hv : jwt.verify (jws_sign k (jwt.stamped (identity_obj uid mail admin) 900 (clock w)))
                 (authMiddleware.JWT_SECRET (process_env w)) now'
               = Ok (jwt.stamped (identity_obj uid mail admin) 900 (clock w))).
  { unfold authMiddleware.JWT_SECRET. rewrite Hk.
    apply verify_signed; [assumption|reflexivity|assumption]. }
  split; [apply generateAccessToken_plain; (assumption || reflexivity)|].
  split; [exact Hv|].
  repeat split; try (rewrite stamped_other by discriminate; reflexivity).
  intros w' req Henv Hclk Hauth.
  rewrite (authenticate_bearer w' req _ Hauth); try apply jws_sign_compact.
  rewrite Henv, Hclk, Hv. reflexivity.
Qed.
End access_tokens.

(** ** The route table *)

Lemma match_path_lit (s : string) (p : list string) :
  express.match_path [express.Lit s] p
  = if bool_decide (to_lower <$> p = [to_lower s]) then Some ∅ else None.
Proof.
  destruct p as [|x [|y p']]; simpl; try reflexivity.
  - destruct (decide (to_lower s = to_lower x)) as [Heq|Hne].
    + rewrite !bool_decide_eq_true_2; [reflexivity|by rewrite Heq|done].
    + rewrite !bool_decide_eq_false_2; [reflexivity|congruence|done].
  - rewrite (bool_decide_eq_false_2 (_ :: _ :: _ = [_])) by discriminate.
    destruct (bool_decide _); reflexivity.
Qed.

(** Only the [GET] routes take a second method. *)
Lemma handles_method_other (m method : string) :
  m ≠ "GET" → express.handles_method m method = bool_decide (m = method).
Proof.
  intros Hm. unfold express.handles_method.
  rewrite (bool_decide_eq_false_2 (m = "GET")) by done.
  by rewrite andb_false_r, orb_false_r.
Qed.

Lemma handles_method_get (method : string) :
  express.handles_method "GET" method
  = bool_decide (method = "GET") || bool_decide (method = "HEAD").
Proof.
  unfold express.handles_method.
  rewrite (bool_decide_eq_true_2 ("GET" = "GET")), andb_true_r by done.
  destruct (decide (method = "GET")) as [->|Hne]; [reflexivity|].
  rewrite bool_decide_eq_false_2, (bool_decide_eq_false_2 _ Hne) by congruence. reflexivity.
Qed.

Section route_table.
Context `{Jws} `{Bcrypt} `{Postgres}.

(** A request that is not for a public route meets the gate first. *)
Lemma handle_protected (w : World) (req : Request) (users : list User) :
  authRoute.is_public req = false →
  authRoute.handle w req users =
    match authMiddleware.authenticate w req with
    | Respond r => (Respond r, users)
    | Next req' => express.dispatch (authRoute.protected_routes w) req' users
    end.
Proof.
  unfold authRoute.is_public, authRoute.handle, authRoute.router, authRoute.public_routes.
  intros Hpub. cbn [app express.dispatch]. rewrite !match_path_lit.
  rewrite !handles_method_other by discriminate.
  change (to_lower "register") with "register". change (to_lower "login") with "login".
  destruct (decide (method req = "POST")) as [Hm|Hm].
  - rewrite (bool_decide_eq_true_2 _ Hm) in Hpub. simpl in Hpub.
    apply orb_false_elim in Hpub as [Hr Hl]. rewrite Hr, Hl.
    rewrite (bool_decide_eq_true_2 ("POST" = method req)) by congruence.
    unfold express.pure. destruct (authMiddleware.authenticate w req); reflexivity.
  - rewrite (bool_decide_eq_false_2 ("POST" = method req)) by congruence.
    unfold express.pure. destruct (authMiddleware.authenticate w req); reflexivity.
Qed.

(** What the gate refuses reaches no predicate and no handler, and
    leaves the table as it was. *)
Lemma gate_refusal_is_final (w : World) (req : Request) (users : list User) (r : Response) :
  authRoute.is_public req = false →
  authMiddleware.authenticate w req = Respond r →
  authRoute.handle w req users = (Respond r, users).
Proof. intros Hpub Hr. rewrite (handle_protected _ _ _ Hpub), Hr. reflexivity. Qed.
End route_table.

(** ** The authentication gate *)

Section gate.
Context `{Jws} `{Bcrypt} `{Postgres}.

Lemma authenticate_no_header (w : World) (req : Request) :
  authorization req = None → authMiddleware.authenticate w req = Respond unauthorized.
Proof. intros Hh. unfold authMiddleware.authenticate. rewrite Hh. reflexivity. Qed.


(** Nor has a header whose scheme is followed by a space and then by
    nothing or by another space. *)
Lemma authenticate_empty_token (w : World) (req : Request) (scheme rest : string) :
  authorization req = Some (scheme ++ " " ++ rest) → no_space scheme = true →
  rest = "" ∨ (∃ rest', rest = " " ++ rest') →
  authMiddleware.authenticate w req = Respond unauthorized.
Proof.
  intros Hh Hns Hrest. unfold authMiddleware.authenticate. rewrite Hh.
  destruct (truthy_str (Some (scheme ++ " " ++ rest))); [|reflexivity].
  cbv beta iota delta [negb default from_option Datatypes.id].
  rewrite (split_app_space _ _ Hns).
  destruct Hrest as [->|[rest' ->]]; reflexivity.
Qed.

End gate.

(** ** The owner-or-admin predicate *)


(** ** Refresh tokens at the gate *)

Section refresh_as_bearer.
Context `{Jws} `{Bcrypt} `{Postgres}.

Lemma generateRefreshToken_plain (w : World) (k uid : string) :
  token.REFRESH_SECRET (process_env w) = Some k → k ≠ "" →
  token.generateRefreshToken w {[ "id" := JStr uid ]}
  = Ok (jws_sign k (refresh_claims uid (clock w))).
Proof.
  intros Hk Hne. unfold token.generateRefreshToken, token.id_only.
  rewrite lookup_singleton_eq, Hk. apply sign_plain; [assumption|reflexivity..].
Qed.

(** Without a refresh secret of its own the refresh token is signed
    with the access secret, and the gate takes it for an access token. *)
Lemma refresh_token_passes_gate_on_shared_secret (w w' : World) (req : Request)
    (uid tok : string) :
  index.startup (process_env w) = Ok tt →
  token.REFRESH_SECRET (process_env w) = token.JWT_SECRET (process_env w) →
  token.generateRefreshToken w {[ "id" := JStr uid ]} = Ok tok →
  process_env w' = process_env w → (clock w' < clock w + 604800)%Z →
  authorization req = Some ("Bearer " ++ tok) →
  authMiddleware.authenticate w' req = Next (set_user (refresh_claims uid (clock w)) req).
Proof.
  intros (k & Hk & Hne)%startup_running Hsame Hgen Henv Hlt Hh.
  unfold token.JWT_SECRET in Hsame. rewrite Hk in Hsame.
  rewrite (generateRefreshToken_plain w k uid Hsame Hne) in Hgen. injection Hgen as <-.
  rewrite (authenticate_bearer w' req _ Hh); try apply jws_sign_compact.
  unfold authMiddleware.JWT_SECRET. rewrite Henv, Hk.
  unfold refresh_claims. rewrite verify_signed; [reflexivity|assumption|reflexivity|assumption].
Qed.

(** C2, as the code has it: when a refresh secret is configured and
    differs from the access secret, a refresh token issued for any id and
    presented as [Authorization: Bearer <refresh-token>] fails
    access-token verification, and the request to a protected route is
    answered 403 without reaching a handler. *)
Theorem refresh_token_rejected_as_bearer (w : World) (uid r : string) :
  index.startup (process_env w) = Ok tt →
  process_env w !! "REFRESH_SECRET" = Some r → r ≠ "" →
  process_env w !! "JWT_SECRET" ≠ Some r →
  ∃ tok,
    token.generateRefreshToken w {[ "id" := JStr uid ]} = Ok tok ∧
    ∀ w' req users,
      process_env w' = process_env w →
      authorization req = Some ("Bearer " ++ tok) →
      (∃ m, jwt.verify tok (authMiddleware.JWT_SECRET (process_env w')) (clock w') = Throw m) ∧
      authMiddleware.authenticate w' req = Respond invalid_token ∧
      (authRoute.is_public req = false →
       authRoute.handle w' req users = (Respond invalid_token, users)).
Proof.
  intros _ Hr Hne Hdiff.
  exists (jws_sign r (refresh_claims uid (clock w))).
  split; [apply generateRefreshToken_plain; [by apply refresh_secret_own|assumption]|].
  intros w' req users Henv Hh.
  assert (Hv : ∃ m, jwt.verify (jws_sign r (refresh_claims uid (clock w)))
                      (authMiddleware.JWT_SECRET (process_env w')) (clock w') = Throw m).
  { apply verify_other_key. unfold authMiddleware.JWT_SECRET. rewrite Henv. exact Hdiff. }
  assert (Ha : authMiddleware.authenticate w' req = Respond invalid_token).
  { rewrite (authenticate_bearer w' req _ Hh); try apply jws_sign_compact.
    destruct Hv as [m ->]. reflexivity. }
  split; [exact Hv|]. split; [exact Ha|].
  intros Hpub. by apply gate_refusal_is_final.
Qed.
End refresh_as_bearer.

(** ** The [users] table *)

Lemma select_eq_none (col : User → string) (v : jval) (users : list User) :
  Forall (fun u => col u ≠ supabase.text_of v) users →
  supabase.select_eq col (Some v) users = [].
Proof.
  induction 1 as [|u users Hu _ IH]; [reflexivity|].
  unfold supabase.select_eq in *. simpl.
  rewrite bool_decide_eq_false_2 by congruence. exact IH.
Qed.

(** A column without duplicates selects the one row that has the value. *)
Lemma select_eq_unique (col : User → string) (users : list User) (u : User) :
  NoDup (col <$> users) → u ∈ users →
  supabase.select_eq col (Some (JStr (col u))) users = [u].
Proof.
  induction users as [|a users IH]; intros Hnd Hin; [by apply elem_of_nil in Hin|].
  rewrite fmap_cons in Hnd. apply NoDup_cons in Hnd as [Ha Hnd].
  unfold supabase.select_eq in *. simpl.
  apply elem_of_cons in Hin as [->|Hin].
  - rewrite bool_decide_eq_true_2 by reflexivity. f_equal.
    apply (select_eq_none col (JStr (col a))). apply Forall_forall.
    intros x Hx Heq. apply Ha. simpl in Heq. rewrite <- Heq.
    apply list_elem_of_fmap. eauto.
  - rewrite bool_decide_eq_false_2; [by apply IH|].
    intros Heq. apply Ha. rewrite <- Heq. apply list_elem_of_fmap. eauto.
Qed.

Lemma filter_all {A} (l : list A) : List.filter (fun _ => true) l = l.
Proof. induction l as [|a l IH]; simpl; congruence. Qed.

(** ** Login *)

Section login.
Context `{Jws} `{Bcrypt} `{Postgres}.

Lemma login_unknown_email (w : World) (req : Request) (users : list User) :
  truthy (req_body req !! "email") = true → truthy (req_body req !! "password") = true →
  supabase.select_eq types.email (req_body req !! "email") users = [] →
  authController.login w req users = (Respond invalid_credentials, users).
Proof.
  intros He Hp Hsel. unfold authController.login. rewrite He, Hp, Hsel. reflexivity.
Qed.

Lemma login_wrong_password (w : World) (req : Request) (users : list User) (u : User) :
  truthy (req_body req !! "email") = true → truthy (req_body req !! "password") = true →
  supabase.select_eq types.email (req_body req !! "email") users = [u] →
  bcrypt_compare (default JNull (req_body req !! "password")) (types.password u) = Ok false →
  authController.login w req users = (Respond invalid_credentials, users).
Proof.
  intros He Hp Hsel Hcmp. unfold authController.login. rewrite He, Hp, Hsel.
  cbn [supabase.single supabase.error supabase.data negb orb]. rewrite Hcmp. reflexivity.
Qed.

(** Both public routes run their handler once the limiter admits the
    request. *)
Lemma handle_login (w : World) (req : Request) (users users' : list User) (r : Response) :
  method req = "POST" → path req = ["login"] → over_limit w = false →
  authController.login w (set_params ∅ req) users = (Respond r, users') →
  authRoute.handle w req users = (Respond r, users').
Proof.
  intros Hm Hp Hl Hr.
  unfold authRoute.handle, authRoute.router, authRoute.public_routes.
  cbn [app express.dispatch]. rewrite Hm, Hp.
  change (express.handles_method "POST" "POST") with true.
  change (express.match_path [express.Lit "register"] ["login"])
    with (@None (gmap string string)).
  change (express.match_path [express.Lit "login"] ["login"])
    with (Some (∅ : gmap string string)).
  cbn [express.run_chain express.pure]. unfold rateLimit.authRateLimiter.
  rewrite Hl, Hr. reflexivity.
Qed.

Lemma handle_register (w : World) (req : Request) (users users' : list User) (r : Response) :
  method req = "POST" → path req = ["register"] → over_limit w = false →
  authController.register w (set_params ∅ req) users = (Respond r, users') →
  authRoute.handle w req users = (Respond r, users').
Proof.
  intros Hm Hp Hl Hr.
  unfold authRoute.handle, authRoute.router, authRoute.public_routes.
  cbn [app express.dispatch]. rewrite Hm, Hp.
  change (express.handles_method "POST" "POST") with true.
  change (express.match_path [express.Lit "register"] ["register"])
    with (Some (∅ : gmap string string)).
  cbn [express.run_chain express.pure]. unfold rateLimit.authRateLimiter.
  rewrite Hl, Hr. reflexivity.
Qed.

Lemma login_compare_throws (w : World) (req : Request) (users : list User) (u : User)
    (m : string) :
  truthy (req_body req !! "email") = true → truthy (req_body req !! "password") = true →
  supabase.select_eq types.email (req_body req !! "email") users = [u] →
  bcrypt_compare (default JNull (req_body req !! "password")) (types.password u) = Throw m →
  authController.login w req users = (Respond (authController.internal_error m), users).
Proof.
  intros He Hp Hsel Hcmp. unfold authController.login. rewrite He, Hp, Hsel.
  cbn [supabase.single supabase.error supabase.data negb orb]. rewrite Hcmp. reflexivity.
Qed.

(** C4: the two rejections of [login] are one response only for a
    password that bcrypt can compare. Take a login with the email of an
    existing account and a login with an email no account has, both with
    the password [pw]. The unknown email is answered 401 with
    [{ message: "Invalid email or password" }]. For the existing account,
    a [pw] that bcrypt compares and finds wrong gets that same response;
    a [pw] that is not a string (a number, [true]) makes [bcrypt.compare]
    reject, and the answer is 500 with the error's message: the two
    responses differ, at the handler and through the route, and tell
    that the email exists. *)
Theorem login_rejection_reveals_account
    (w1 w2 : World) (req1 req2 : Request) (users1 users2 : list User)
    (u : User) (mail2 : string) (pw : jval) :
  (* the first request: the email of [u] *)
  NoDup (types.email <$> users1) → u ∈ users1 →
  req_body req1 !! "email" = Some (JStr (types.email u)) → types.email u ≠ "" →
  req_body req1 !! "password" = Some pw →
  (* the second request: an email no row has, the same password *)
  req_body req2 !! "email" = Some (JStr mail2) → mail2 ≠ "" →
  req_body req2 !! "password" = Some pw →
  Forall (fun x => types.email x ≠ mail2) users2 →
  truthy (Some pw) = true →
  authController.login w2 req2 users2 = (Respond invalid_credentials, users2) ∧
  (bcrypt_compare pw (types.password u) = Ok false →
   authController.login w1 req1 users1 = (Respond invalid_credentials, users1)) ∧
  ((∀ s, pw ≠ JStr s) →
   ∃ m,
     authController.login w1 req1 users1
       = (Respond (authController.internal_error m), users1) ∧
     status (authController.internal_error m) = 500%Z ∧
     status invalid_credentials = 401%Z ∧
     fst (authController.login w1 req1 users1) ≠ fst (authController.login w2 req2 users2) ∧
     (method req1 = "POST" → path req1 = ["login"] → over_limit w1 = false →
      method req2 = "POST" → path req2 = ["login"] → over_limit w2 = false →
      fst (authRoute.handle w1 req1 users1) = Respond (authController.internal_error m) ∧
      fst (authRoute.handle w2 req2 users2) = Respond invalid_credentials)).
Proof.
  intros Hnd Hin He1 Hne1 Hp1 He2 Hne2 Hp2 Hfresh Hpw.
  assert (H2' : ∀ req, req_body req = req_body req2 → ∀ w,
             authController.login w req users2 = (Respond invalid_credentials, users2)).
  { intros req Hb w. apply login_unknown_email; rewrite Hb.
    - rewrite He2. by apply bool_decide_eq_true_2.
    - by rewrite Hp2.
    - rewrite He2. by apply select_eq_none. }
  split; [by apply H2'|]. split.
  - intros Hcmp. apply (login_wrong_password w1 req1 users1 u).
    + rewrite He1. by apply bool_decide_eq_true_2.
    + by rewrite Hp1.
    + rewrite He1. by apply select_eq_unique.
    + rewrite Hp1. exact Hcmp.
  - intros Hns. destruct (bcrypt_compare_string pw (types.password u) Hns) as [m Hm].
    assert (H1' : ∀ req, req_body req = req_body req1 → ∀ w,
               authController.login w req users1
               = (Respond (authController.internal_error m), users1)).
    { intros req Hb w. apply (login_compare_throws w req users1 u m); rewrite Hb.
      - rewrite He1. by apply bool_decide_eq_true_2.
      - by rewrite Hp1.
      - rewrite He1. by apply select_eq_unique.
      - rewrite Hp1. exact Hm. }
    exists m. split; [by apply H1'|]. split; [reflexivity|]. split; [reflexivity|]. split.
    + rewrite (H1' req1 eq_refl), (H2' req2 eq_refl). discriminate.
    + intros Hm1 Hpa1 Hl1 Hm2 Hpa2 Hl2.
      rewrite (handle_login w1 req1 users1 users1 (authController.internal_error m))
        by (auto using H1').
      rewrite (handle_login w2 req2 users2 users2 invalid_credentials) by (auto using H2').
      split; reflexivity.
Qed.
End login.

(** ** Registration *)

Lemma refresh_secret_running (env : gmap string string) (k : string) :
  env !! "JWT_SECRET" = Some k → k ≠ "" →
  ∃ kr, token.REFRESH_SECRET env = Some kr ∧ kr ≠ "".
Proof.
  intros Hk Hne. unfold token.REFRESH_SECRET, token.JWT_SECRET, js_or.
  destruct (env !! "REFRESH_SECRET") as [r|] eqn:Hr; simpl; [|eauto].
  destruct (decide (r = "")) as [->|Hr'].
  - rewrite bool_decide_eq_false_2 by (intros Hc; by apply Hc). eauto.
  - rewrite (bool_decide_eq_true_2 _ Hr'). eauto.
Qed.

Section register.
Context `{Jws} `{Bcrypt} `{Postgres}.

Lemma register_success (w : World) (req : Request) (users : list User)
    (k kr mail hashed : string) :
  process_env w !! "JWT_SECRET" = Some k → k ≠ "" →
  token.REFRESH_SECRET (process_env w) = Some kr → kr ≠ "" →
  req_body req !! "email" = Some (JStr mail) → mail ≠ "" →
  truthy (req_body req !! "password") = true →
  Forall (fun u => types.email u ≠ mail) users →
  bcrypt_hash (default JNull (req_body req !! "password")) 10 = Ok hashed →
  let row := registered_row w mail hashed
               (authController.boolean_or_false (req_body req !! "is_admin")) users in
  authController.register w req users =
    (Respond (created w (jws_sign k (jwt.stamped (row_obj row) 900 (clock w)))
                        (jws_sign kr (refresh_claims (id row) (clock w)))),
     (users ++ [row])%list).
Proof.
  intros Hk Hne Hkr Hner He Hmail Hp Hfresh Hhash row.
  unfold authController.register. rewrite He, Hp.
  cbn [truthy]. rewrite (bool_decide_eq_true_2 _ Hmail). cbn [negb orb].
  rewrite (select_eq_none types.email (JStr mail) users Hfresh).
  cbn [supabase.single supabase.data default from_option Datatypes.id].
  rewrite Hhash. unfold supabase.insert.
  cbn [supabase.error supabase.data supabase.text_of].
  fold (registered_row w mail hashed
          (authController.boolean_or_false (req_body req !! "is_admin")) users).
  fold row.
  rewrite (generateAccessToken_plain w k (row_obj row) Hk Hne) by reflexivity.
  rewrite (generateRefreshToken_plain w kr (id row) Hkr Hner).
  reflexivity.
Qed.

(** C9: a registration whose body has [is_admin: true], an email no
    account has and a password is served without any credential: the
    route runs no gate. It stores the new account with [is_admin = true]
    and answers 201 with an access token whose claims say
    [is_admin: true]. The stored flag is the body's [is_admin] when that
    is a boolean, and false when it is absent and when it is of another
    type (null, a number, a string such as ["true"]). *)
Theorem register_takes_is_admin_from_body (w : World) (req : Request) (users : list User)
    (mail hashed : string) :
  index.startup (process_env w) = Ok tt →
  method req = "POST" → path req = ["register"] → over_limit w = false →
  req_body req !! "email" = Some (JStr mail) → mail ≠ "" →
  truthy (req_body req !! "password") = true →
  Forall (fun u => types.email u ≠ mail) users →
  bcrypt_hash (default JNull (req_body req !! "password")) 10 = Ok hashed →
  ∃ row accessToken refreshToken claims,
    authRoute.handle w req users
      = (Respond (created w accessToken refreshToken), (users ++ [row])%list) ∧
    types.email row = mail ∧ types.password row = hashed ∧
    (∀ b, req_body req !! "is_admin" = Some (JBool b) → types.is_admin row = b) ∧
    (req_body req !! "is_admin" = None → types.is_admin row = false) ∧
    (∀ v, req_body req !! "is_admin" = Some v → (∀ b, v ≠ JBool b) →
       types.is_admin row = false) ∧
    jwt.verify accessToken (authMiddleware.JWT_SECRET (process_env w)) (clock w) = Ok claims ∧
    claims !! "is_admin" = Some (JBool (types.is_admin row)) ∧
    (req_body req !! "is_admin" = Some (JBool true) →
     types.is_admin row = true ∧ claims !! "is_admin" = Some (JBool true) ∧
     authMiddleware.requireAdmin (set_user claims req) = Next (set_user claims req)).
Proof.
  intros (k & Hk & Hne)%startup_running Hm Hpath Hl He Hmail Hp Hfresh Hhash.
  destruct (refresh_secret_running _ k Hk Hne) as (kr & Hkr & Hner).
  set (row := registered_row w mail hashed
                (authController.boolean_or_false (req_body req !! "is_admin")) users).
  exists row, (jws_sign k (jwt.stamped (row_obj row) 900 (clock w))),
    (jws_sign kr (refresh_claims (id row) (clock w))), (jwt.stamped (row_obj row) 900 (clock w)).
  split.
  { apply handle_register; try assumption.
    apply (register_success w (set_params ∅ req) users k kr mail hashed); assumption. }
  split; [reflexivity|]. split; [reflexivity|].
  split. { intros b Hb. subst row. cbn. by rewrite Hb. }
  split. { intros Hb. subst row. cbn. by rewrite Hb. }
  split. { intros v Hb Hv. subst row. cbn. rewrite Hb. destruct v; try reflexivity.
           by destruct (Hv b). }
  split.
  { unfold authMiddleware.JWT_SECRET. rewrite Hk.
    apply verify_signed; [assumption|reflexivity|lia]. }
  split; [reflexivity|].
  intros Hadm. subst row. unfold authMiddleware.requireAdmin. rewrite Hadm.
  repeat split.
Qed.

(** C1 at [register]: the access token a registration returns is signed
    over the whole inserted row. Besides [id], [email] and [is_admin] its
    claims carry the bcrypt hash under [password] and the row's
    [created_at]; its [exp] is 900 seconds after issuance. *)
Theorem register_token_embeds_whole_row (w : World) (req : Request) (users : list User)
    (mail hashed : string) :
  index.startup (process_env w) = Ok tt →
  req_body req !! "email" = Some (JStr mail) → mail ≠ "" →
  truthy (req_body req !! "password") = true →
  Forall (fun u => types.email u ≠ mail) users →
  bcrypt_hash (default JNull (req_body req !! "password")) 10 = Ok hashed →
  ∃ accessToken refreshToken claims,
    fst (authController.register w req users) = Respond (created w accessToken refreshToken) ∧
    jwt.verify accessToken (authMiddleware.JWT_SECRET (process_env w)) (clock w) = Ok claims ∧
    claims !! "password" = Some (JStr hashed) ∧
    claims !! "created_at" = Some (JStr (pg_timestamp (clock w))) ∧
    claims !! "email" = Some (JStr mail) ∧
    claims !! "exp" = Some (JNum (clock w + 900)) ∧
    dom claims = ({[ "id"; "email"; "password"; "is_admin"; "created_at"; "iat"; "exp" ]}
                    : gset string).
Proof.
  intros (k & Hk & Hne)%startup_running He Hmail Hp Hfresh Hhash.
  destruct (refresh_secret_running _ k Hk Hne) as (kr & Hkr & Hner).
  set (row := registered_row w mail hashed
                (authController.boolean_or_false (req_body req !! "is_admin")) users).
  exists (jws_sign k (jwt.stamped (row_obj row) 900 (clock w))),
    (jws_sign kr (refresh_claims (id row) (clock w))), (jwt.stamped (row_obj row) 900 (clock w)).
  split.
  { rewrite (register_success w req users k kr mail hashed) by assumption. reflexivity. }
  split.
  { unfold authMiddleware.JWT_SECRET. rewrite Hk.
    apply verify_signed; [assumption|reflexivity|lia]. }
  repeat split.
Qed.
End register.

(** ** Routes behind the gate *)

Lemma dispatch_skip (m : string) (pat : list express.Segment) (hs : list express.Handler)
    (rest : list express.Layer) (req : Request) (users : list User) :
  (if express.handles_method m (method req) then express.match_path pat (path req) else None) = None →
  express.dispatch (express.Route m pat hs :: rest) req users
  = express.dispatch rest req users.
Proof. intros Hno. cbn [express.dispatch]. rewrite Hno. reflexivity. Qed.

Lemma dispatch_hit (m : string) (pat : list express.Segment) (hs : list express.Handler)
    (rest : list express.Layer) (req : Request) (users users' : list User)
    (ps : gmap string string) (r : Response) :
  (if express.handles_method m (method req) then express.match_path pat (path req) else None) = Some ps →
  express.run_chain hs (set_params ps req) users = (Respond r, users') →
  express.dispatch (express.Route m pat hs :: rest) req users = (Respond r, users').
Proof. intros Hyes Hr. cbn [express.dispatch]. rewrite Hyes, Hr. reflexivity. Qed.

Lemma filter_none {A} (l : list A) : List.filter (fun _ => false) l = [].
Proof. induction l as [|a l IH]; simpl; congruence. Qed.

Section behind_the_gate.
Context `{Jws} `{Bcrypt} `{Postgres}.

(** The access token [login] returns has the three fields of the
    identity and the two time claims. *)
Lemma login_success (w : World) (req : Request) (users : list User) (u : User)
    (k kr : string) :
  process_env w !! "JWT_SECRET" = Some k → k ≠ "" →
  token.REFRESH_SECRET (process_env w) = Some kr → kr ≠ "" →
  truthy (req_body req !! "email") = true → truthy (req_body req !! "password") = true →
  supabase.select_eq types.email (req_body req !! "email") users = [u] →
  bcrypt_compare (default JNull (req_body req !! "password")) (types.password u) = Ok true →
  let claims := jwt.stamped (identity_obj (id u) (types.email u) (types.is_admin u)) 900 (clock w) in
  ∃ r, authController.login w req users = (Respond r, users) ∧
       status r = 200%Z ∧
       set_cookie r = Some (authController.refresh_cookie w
                              (jws_sign kr (refresh_claims (id u) (clock w)))) ∧
       (∃ rest, res_body r = JObj (msg "Login successful"
                                   :: ("accessToken", JVal (JStr (jws_sign k claims))) :: rest)) ∧
       dom claims = ({[ "id"; "email"; "is_admin"; "iat"; "exp" ]} : gset string).
Proof.
  intros Hk Hne Hkr Hner He Hp Hsel Hcmp claims.
  unfold authController.login. rewrite He, Hp, Hsel.
  cbn [supabase.single supabase.error supabase.data negb orb]. rewrite Hcmp.
    rewrite (generateAccessToken_plain w k _ Hk Hne) by reflexivity.
  rewrite (generateRefreshToken_plain w kr (id u) Hkr Hner).
  eexists. split; [reflexivity|]. repeat split. eexists. reflexivity.
Qed.

Lemma refreshToken_success (w : World) (req : Request) (users : list User) (u : User)
    (k kr uid : string) (issued : Z) :
  process_env w !! "JWT_SECRET" = Some k → k ≠ "" →
  token.REFRESH_SECRET (process_env w) = Some kr → kr ≠ "" →
  cookies req !! "refreshToken" = Some (jws_sign kr (refresh_claims uid issued)) →
  (clock w < issued + 604800)%Z →
  supabase.select_eq id (Some (JStr uid)) users = [u] →
  authController.refreshToken w req users =
    (Respond (json_response 200
                [("accessToken", JVal (JStr (jws_sign k (jwt.stamped (row_obj u) 900 (clock w)))))]),
     users).
Proof.
  intros Hk Hne Hkr Hner Hc Hlt Hsel.
  unfold authController.refreshToken. rewrite Hc.
  rewrite (proj2 (truthy_str_Some _) (proj1 (jws_sign_compact kr _))).
  cbv beta iota delta [negb default from_option Datatypes.id].
  unfold token.verifyRefreshToken. rewrite Hkr.
  unfold refresh_claims. rewrite verify_signed by (assumption || reflexivity).
  rewrite stamped_other by discriminate. rewrite lookup_singleton_eq, Hsel.
  cbn [supabase.single supabase.error supabase.data].
  rewrite (generateAccessToken_plain w k _ Hk Hne) by reflexivity.
  reflexivity.
Qed.

Lemma dispatch_refresh_token (w : World) (req : Request) (users users' : list User)
    (r : Response) :
  method req = "GET" → path req = ["refresh-token"] →
  authController.refreshToken w (set_params ∅ req) users = (Respond r, users') →
  express.dispatch (authRoute.protected_routes w) req users = (Respond r, users').
Proof.
  intros Hm Hp Hr. unfold authRoute.protected_routes.
  rewrite dispatch_skip by (rewrite Hm, Hp; reflexivity).
  apply (dispatch_hit _ _ _ _ _ _ _ ∅); [rewrite Hm, Hp; reflexivity|].
  cbn [express.run_chain]. rewrite Hr. reflexivity.
Qed.

Lemma dispatch_delete_user (w : World) (req : Request) (users users' : list User)
    (uid : string) (r : Response) :
  method req = "DELETE" → path req = ["user"; uid] → uid ≠ "" →
  truthy (user req ≫= lookup "is_admin") = true →
  authController.deleteUser w (set_params {[ "userId" := uid ]} req) users = (Respond r, users') →
  express.dispatch (authRoute.protected_routes w) req users = (Respond r, users').
Proof.
  intros Hm Hp Hne Hadm Hr. unfold authRoute.protected_routes.
  rewrite dispatch_skip by (rewrite Hm; reflexivity).
  do 2 rewrite dispatch_skip by (rewrite Hm, Hp; reflexivity).
  apply (dispatch_hit _ _ _ _ _ _ _ {[ "userId" := uid ]}).
  - rewrite Hm, Hp. cbn [express.match_path].
    rewrite !bool_decide_eq_true_2 by reflexivity.
    rewrite (bool_decide_eq_false_2 _ Hne). reflexivity.
  - cbn [express.run_chain express.pure]. unfold authMiddleware.requireAdmin.
    cbn [user set_params]. rewrite Hadm. cbn [negb]. rewrite Hr. reflexivity.
Qed.

(** A handler that reads a parameter the route did not bind filters
    the delete on [undefined]: no row is removed and [.single()] reports
    an error. *)
Lemma deleteUser_unbound_id (w : World) (req : Request) (users : list User) :
  params req !! "id" = None →
  ∃ e, authController.deleteUser w req users =
         (Respond (json_response 500 [msg "Error deleting user"; ("error", JVal (JStr e))]),
          users).
Proof.
  intros Hid. unfold authController.deleteUser, supabase.delete_eq_id, supabase.select_eq.
  rewrite Hid. cbn [fmap option_fmap option_map supabase.eq_filter negb].
  rewrite filter_none, filter_all. cbn [supabase.single supabase.error]. eauto.
Qed.
End behind_the_gate.

(** ** The refresh endpoint *)

Section refresh_endpoint.
Context `{Jws} `{Bcrypt} `{Postgres}.

(** C3, as the code has it: the refresh route is registered behind
    the authentication gate. A request that carries a valid, unexpired
    refresh cookie and no bearer credential is answered 401 by the gate.
    When it also carries a bearer access token the gate accepts, and the
    cookie's id is the id of one row of the table, the response is 200
    with a fresh access token signed over that row as it is now; no
    cookie is set, so no new refresh token is issued, and the table is
    unchanged. *)
Theorem refresh_behind_gate (w0 w : World) (req : Request) (users : list User)
    (uid rt : string) (u : User) :
  index.startup (process_env w) = Ok tt →
  process_env w0 = process_env w →
  token.generateRefreshToken w0 {[ "id" := JStr uid ]} = Ok rt →
  (clock w < clock w0 + 604800)%Z →
  method req = "GET" → path req = ["refresh-token"] →
  cookies req !! "refreshToken" = Some rt →
  NoDup (id <$> users) → u ∈ users → id u = uid →
  (authorization req = None →
   authRoute.handle w req users = (Respond unauthorized, users)) ∧
  (∀ decoded,
     authMiddleware.authenticate w req = Next (set_user decoded req) →
     ∃ accessToken claims r,
       authRoute.handle w req users = (Respond r, users) ∧
       status r = 200%Z ∧
       res_body r = JObj [("accessToken", JVal (JStr accessToken))] ∧
       set_cookie r = None ∧
       token.generateAccessToken w (row_obj u) = Ok accessToken ∧
       jwt.verify accessToken (authMiddleware.JWT_SECRET (process_env w)) (clock w)
         = Ok claims ∧
       claims !! "id" = Some (JStr (id u)) ∧
       claims !! "email" = Some (JStr (types.email u)) ∧
       claims !! "is_admin" = Some (JBool (types.is_admin u))).
Proof.
  intros (k & Hk & Hne)%startup_running Henv Hgen Hlt Hm Hp Hc Hnd Hin Hid.
  assert (Hpub : authRoute.is_public req = false).
  { unfold authRoute.is_public. rewrite Hm. reflexivity. }
  split.
  - intros Hh. apply gate_refusal_is_final; [exact Hpub|].
    by apply authenticate_no_header.
  - intros decoded Hauth.
    destruct (refresh_secret_running _ k Hk Hne) as (kr & Hkr & Hner).
    rewrite (generateRefreshToken_plain w0 kr uid) in Hgen by (by rewrite ?Henv).
    injection Hgen as <-.
    exists (jws_sign k (jwt.stamped (row_obj u) 900 (clock w))),
      (jwt.stamped (row_obj u) 900 (clock w)).
    eexists. split.
    { rewrite (handle_protected _ _ _ Hpub), Hauth.
      apply dispatch_refresh_token; [exact Hm|exact Hp|].
      apply (refreshToken_success w _ users u k kr uid (clock w0)); try assumption.
      rewrite <- Hid. by apply select_eq_unique. }
    split; [reflexivity|]. split; [reflexivity|]. split; [reflexivity|].
    split; [apply generateAccessToken_plain; (assumption || reflexivity)|].
    split.
    { unfold authMiddleware.JWT_SECRET. rewrite Hk.
      apply verify_signed; [assumption|reflexivity|lia]. }
    repeat split.
Qed.
End refresh_endpoint.

(** ** Deleting a user as admin *)

Section delete_user.
Context `{Jws} `{Bcrypt} `{Postgres}.

(** C10: for every [DELETE /auth/user/:userId] that passes the gate
    with an admin identity, the route binds the parameter [userId] and no
    parameter [id]; [deleteUser] reads [req.params.id], so the delete is
    filtered on [undefined] whatever [userId] the URL names: the response
    is the 500 of a failed delete and the table, the named user's row
    included, is left as it was. *)
Theorem deleteUser_ignores_route_parameter (w : World) (req : Request) (users : list User)
    (uid : string) (decoded : gmap string jval) :
  method req = "DELETE" → path req = ["user"; uid] → uid ≠ "" →
  authMiddleware.authenticate w req = Next (set_user decoded req) →
  truthy (decoded !! "is_admin") = true →
  express.match_path [express.Lit "user"; express.Param "userId"] (path req)
    = Some {[ "userId" := uid ]} ∧
  ({[ "userId" := uid ]} : gmap string string) !! "id" = None ∧
  ∃ e,
    authRoute.handle w req users =
      (Respond (json_response 500 [msg "Error deleting user"; ("error", JVal (JStr e))]),
       users).
Proof.
  intros Hm Hp Hne Hauth Hadm.
  split.
  { rewrite Hp. cbn [express.match_path].
    rewrite bool_decide_eq_true_2 by reflexivity.
    rewrite (bool_decide_eq_false_2 _ Hne). reflexivity. }
  split; [reflexivity|].
  assert (Hpub : authRoute.is_public req = false).
  { unfold authRoute.is_public. rewrite Hm. reflexivity. }
  destruct (deleteUser_unbound_id w (set_params {[ "userId" := uid ]} (set_user decoded req))
              users) as [e He]; [reflexivity|].
  exists e. rewrite (handle_protected _ _ _ Hpub), Hauth.
  by apply (dispatch_delete_user w _ users users uid).
Qed.
End delete_user.

(** * Further properties

    What the rest of the two routers and their handlers do. *)

(** ** More facts about the helpers *)

Lemma append_empty_r (s : string) : s ++ "" = s.
Proof.
  induction s as [|c r IH]; [reflexivity|].
  change (String c (r ++ "") = String c r). rewrite IH. reflexivity.
Qed.

(** The second piece of a header is the token, whatever the first piece
    is and whatever follows a further space. *)
Lemma split_second_piece (scheme tok rest : string) :
  no_space scheme = true → no_space tok = true →
  rest = "" ∨ (∃ rest', rest = " " ++ rest') →
  split (scheme ++ " " ++ tok ++ rest) !! 1%nat = Some tok.
Proof.
  intros Hs Ht Hrest. rewrite (split_app_space _ _ Hs).
  destruct Hrest as [->|[rest' ->]].
  - rewrite append_empty_r, (split_no_space _ Ht). reflexivity.
  - rewrite (split_app_space _ _ Ht). reflexivity.
Qed.

Lemma filter_keeps_all {A} (P : A → bool) (l : list A) :
  (∀ x, x ∈ l → P x = true) → List.filter P l = l.
Proof.
  induction l as [|a l IH]; intros Hall; simpl; [reflexivity|].
  rewrite (Hall a) by apply list_elem_of_here.
  rewrite IH; [reflexivity|]. intros x Hx. apply Hall. by apply list_elem_of_further.
Qed.

Lemma elem_of_filter_bool {A} (P : A → bool) (l : list A) (x : A) :
  x ∈ List.filter P l ↔ x ∈ l ∧ P x = true.
Proof. rewrite !list_elem_of_In. apply filter_In. Qed.

Lemma select_eq_absent (col : User → string) (v : string) (users : list User) :
  (∀ x, x ∈ users → col x ≠ v) → supabase.select_eq col (Some (JStr v)) users = [].
Proof.
  intros Hall. apply (select_eq_none col (JStr v)). apply Forall_forall.
  intros x Hx. by apply Hall.
Qed.

(** ** The gate and the predicates, once more *)

Section gate_and_predicates.
Context `{Jws} `{Bcrypt} `{Postgres}.

(** X16: the gate reads the second space-separated piece of the header
    and nothing else. Any scheme word, also an empty one, followed by one
    space and a token is treated like [Bearer]: the token is verified, and
    text after a further space is ignored. A header with two spaces after
    the scheme has an empty second piece and is answered 401 even when a
    valid token follows. *)
Theorem authenticate_reads_second_piece (w : World) (req : Request)
    (scheme tok rest : string) :
  no_space scheme = true →
  (authorization req = Some (scheme ++ " " ++ tok ++ rest) →
   tok ≠ "" → no_space tok = true → rest = "" ∨ (∃ rest', rest = " " ++ rest') →
   authMiddleware.authenticate w req =
     match jwt.verify tok (authMiddleware.JWT_SECRET (process_env w)) (clock w) with
     | Ok decoded => Next (set_user decoded req)
     | Throw _ => Respond invalid_token
     end) ∧
  (authorization req = Some (scheme ++ "  " ++ rest) →
   authMiddleware.authenticate w req = Respond unauthorized).
Proof.
  intros Hs. split.
  - intros Hh Hne Ht Hrest. unfold authMiddleware.authenticate. rewrite Hh.
    destruct (truthy_str (Some (scheme ++ " " ++ tok ++ rest))) eqn:Htr.
    + cbv beta iota delta [negb default from_option Datatypes.id].
      rewrite (split_second_piece scheme tok rest Hs Ht Hrest).
      cbv beta iota delta [default from_option Datatypes.id].
      rewrite (proj2 (truthy_str_Some tok) Hne). reflexivity.
    + exfalso. simpl in Htr. apply bool_decide_eq_false in Htr. apply Htr.
      destruct scheme; discriminate.
  - intros Hh. apply (authenticate_empty_token w req scheme (" " ++ rest)); [exact Hh|exact Hs|].
    right. eauto.
Qed.

(** X1: [requireAdmin] lets a request with a boolean [is_admin] through
    exactly when the flag is true. With the flag false or absent, and
    also with no identity attached at all, it answers 403 (never 401). *)
Theorem requireAdmin_spec (req : Request) :
  (user req = None → authMiddleware.requireAdmin req = Respond admin_required) ∧
  (∀ u, user req = Some u → u !! "is_admin" = None →
     authMiddleware.requireAdmin req = Respond admin_required) ∧
  (∀ u admin, user req = Some u → u !! "is_admin" = Some (JBool admin) →
     (authMiddleware.requireAdmin req = Next req ↔ admin = true) ∧
     (admin = false → authMiddleware.requireAdmin req = Respond admin_required)).
Proof.
  unfold authMiddleware.requireAdmin. split; [|split].
  - intros ->. reflexivity.
  - intros u -> Hn. simpl. rewrite Hn. reflexivity.
  - intros u admin -> Ha. simpl. rewrite Ha. destruct admin; simpl.
    + split; [split; reflexivity|discriminate].
    + split; [split; discriminate|reflexivity].
Qed.

(** A request the gate accepts is served by the routes behind it. *)
Lemma handle_behind_gate (w : World) (req : Request) (users users' : list User)
    (decoded : gmap string jval) (r : Response) :
  authRoute.is_public req = false →
  authMiddleware.authenticate w req = Next (set_user decoded req) →
  express.dispatch (authRoute.protected_routes w) (set_user decoded req) users
    = (Respond r, users') →
  authRoute.handle w req users = (Respond r, users').
Proof. intros Hpub Hauth Hd. rewrite (handle_protected _ _ _ Hpub), Hauth. exact Hd. Qed.

Lemma not_public_method (req : Request) :
  method req ≠ "POST" → authRoute.is_public req = false.
Proof.
  intros Hm. unfold authRoute.is_public. rewrite (bool_decide_eq_false_2 _ Hm). reflexivity.
Qed.

(** X2: [GET /auth/users] is for admins. With an accepted token whose
    [is_admin] is true the answer is 200 with one object per row of the
    table, in table order, holding [id], [email], [is_admin] and
    [created_at] and not the password hash; with the flag false or absent
    it is 403. Either way the table is unchanged. *)
Theorem users_listing_admin_only (w : World) (req : Request) (users : list User)
    (decoded : gmap string jval) :
  method req = "GET" → path req = ["users"] →
  authMiddleware.authenticate w req = Next (set_user decoded req) →
  (decoded !! "is_admin" = Some (JBool true) →
   authRoute.handle w req users =
     (Respond {| status := 200; set_cookie := None;
                 res_body := JArr (public_json <$> users) |}, users)) ∧
  (decoded !! "is_admin" = Some (JBool false) ∨ decoded !! "is_admin" = None →
   authRoute.handle w req users = (Respond admin_required, users)).
Proof.
  intros Hm Hp Hauth.
  assert (Hpub : authRoute.is_public req = false).
  { apply not_public_method. rewrite Hm. discriminate. }
  assert (Hskip : ∀ r users',
    express.run_chain [express.pure authMiddleware.requireAdmin; authController.getUsers w]
      (set_params ∅ (set_user decoded req)) users = (Respond r, users') →
    authRoute.handle w req users = (Respond r, users')).
  { intros r users' Hr. apply (handle_behind_gate w req users users' decoded r Hpub Hauth).
    unfold authRoute.protected_routes.
    do 2 rewrite dispatch_skip by (cbn [method path set_user]; rewrite Hm, Hp; reflexivity).
    apply (dispatch_hit _ _ _ _ _ _ _ ∅); [|exact Hr].
    cbn [method path set_user]. rewrite Hm, Hp. reflexivity. }
  split.
  - intros Ha. apply Hskip. cbn [express.run_chain express.pure].
    unfold authMiddleware.requireAdmin. cbn [user set_params set_user mbind option_bind].
    rewrite Ha. reflexivity.
  - intros Ha. apply Hskip. cbn [express.run_chain express.pure].
    unfold authMiddleware.requireAdmin. cbn [user set_params set_user mbind option_bind].
    destruct Ha as [-> | ->]; reflexivity.
Qed.
End gate_and_predicates.

(** ** Reading and deleting accounts *)

Section accounts.
Context `{Jws} `{Bcrypt} `{Postgres}.



Lemma deleteCurrentUser_found (w : World) (req : Request) (users : list User)
    (decoded : gmap string jval) (uid : string) (u : User) :
  user req = Some decoded → decoded !! "id" = Some (JStr uid) → uid ≠ "" →
  NoDup (id <$> users) → u ∈ users → id u = uid →
  authController.deleteCurrentUser w req users =
    (Respond (user_deleted u),
     List.filter (fun x => negb (bool_decide (uid = id x))) users).
Proof.
  intros Hu Hid Hne Hnd Hin <-.
  unfold authController.deleteCurrentUser, supabase.delete_eq_id. rewrite Hu.
  cbn [mbind option_bind]. rewrite Hid. cbn [truthy].
  rewrite (bool_decide_eq_true_2 _ Hne). cbn [negb].
  rewrite (select_eq_unique id users u Hnd Hin).
  reflexivity.
Qed.

Lemma deleteCurrentUser_missing (w : World) (req : Request) (users : list User)
    (decoded : gmap string jval) (uid : string) :
  user req = Some decoded → decoded !! "id" = Some (JStr uid) → uid ≠ "" →
  (∀ x, x ∈ users → id x ≠ uid) →
  ∃ e, authController.deleteCurrentUser w req users =
         (Respond (json_response 500 [msg "Error deleting user"; ("error", JVal (JStr e))]),
          users).
Proof.
  intros Hu Hid Hne Hnone.
  unfold authController.deleteCurrentUser, supabase.delete_eq_id. rewrite Hu.
  cbn [mbind option_bind]. rewrite Hid. cbn [truthy].
  rewrite (bool_decide_eq_true_2 _ Hne). cbn [negb].
  rewrite (select_eq_absent id uid users Hnone).
  rewrite filter_keeps_all.
  - cbn [supabase.single supabase.error]. eauto.
  - intros x Hx. cbn [supabase.eq_filter supabase.text_of].
    rewrite bool_decide_eq_false_2; [reflexivity|]. intros Hc. by apply (Hnone x Hx).
Qed.

Lemma dispatch_delete_current (w : World) (req : Request) (users users' : list User)
    (r : Response) :
  method req = "DELETE" → path req = ["user"] →
  authController.deleteCurrentUser w (set_params ∅ req) users = (Respond r, users') →
  express.dispatch (authRoute.protected_routes w) req users = (Respond r, users').
Proof.
  intros Hm Hp Hr. unfold authRoute.protected_routes.
  rewrite dispatch_skip by (rewrite Hm; reflexivity).
  do 3 rewrite dispatch_skip by (rewrite Hm, Hp; reflexivity).
  apply (dispatch_hit _ _ _ _ _ _ _ ∅); [rewrite Hm, Hp; reflexivity|].
  cbn [express.run_chain]. rewrite Hr. reflexivity.
Qed.

(** The table after [deleteCurrentUser] for [uid]. *)
Lemma elem_of_without (uid : string) (users : list User) (x : User) :
  x ∈ List.filter (fun x => negb (bool_decide (uid = id x))) users
  ↔ x ∈ users ∧ id x ≠ uid.
Proof.
  rewrite elem_of_filter_bool, negb_true_iff, bool_decide_eq_false.
  split; intros [Hin Hx]; (split; [exact Hin|congruence]).
Qed.

(** X4: [DELETE /auth/user] removes the caller's own row and no other.
    With an accepted token for [uid] and ids unique in the table: if a row
    has that id the answer is 200 with the deleted row (all its columns)
    and the table afterwards holds exactly the rows whose id is not [uid];
    if none has, the answer is 500 and the table is unchanged. *)
Theorem deleteCurrentUser_removes_own_row (w : World) (req : Request) (users : list User)
    (decoded : gmap string jval) (uid : string) :
  method req = "DELETE" → path req = ["user"] →
  authMiddleware.authenticate w req = Next (set_user decoded req) →
  decoded !! "id" = Some (JStr uid) → uid ≠ "" →
  NoDup (id <$> users) →
  (∀ u, u ∈ users → id u = uid →
     ∃ users',
       authRoute.handle w req users = (Respond (user_deleted u), users') ∧
       ∀ x, x ∈ users' ↔ x ∈ users ∧ id x ≠ uid) ∧
  ((∀ x, x ∈ users → id x ≠ uid) →
     ∃ e, authRoute.handle w req users =
            (Respond (json_response 500 [msg "Error deleting user"; ("error", JVal (JStr e))]),
             users)).
Proof.
  intros Hm Hp Hauth Hid Hne Hnd.
  assert (Hpub : authRoute.is_public req = false).
  { apply not_public_method. rewrite Hm. discriminate. }
  split.
  - intros u Hin Hu. eexists. split.
    + apply (handle_behind_gate w req users _ decoded _ Hpub Hauth).
      apply dispatch_delete_current; [exact Hm|exact Hp|].
      by apply (deleteCurrentUser_found w _ users decoded uid u).
    + apply elem_of_without.
  - intros Hnone.
    destruct (deleteCurrentUser_missing w (set_params ∅ (set_user decoded req)) users decoded uid)
      as [e He]; try done.
    exists e. apply (handle_behind_gate w req users _ decoded _ Hpub Hauth).
    by apply dispatch_delete_current.
Qed.
End accounts.

(** ** Refresh tokens *)

Section refresh_tokens.
Context `{Jws} `{Bcrypt} `{Postgres}.

Lemma generateRefreshToken_of_user (w : World) (k uid : string) (user : gmap string jval) :
  token.REFRESH_SECRET (process_env w) = Some k → k ≠ "" →
  user !! "id" = Some (JStr uid) →
  token.generateRefreshToken w user = Ok (jws_sign k (refresh_claims uid (clock w))).
Proof.
  intros Hk Hne Hid. unfold token.generateRefreshToken, token.id_only.
  rewrite Hid, Hk. apply sign_plain; [assumption|reflexivity..].
Qed.

(** X6: a refresh token carries the id and nothing else of the object
    it is issued for, and lives seven days. Verified under the same
    configuration before [iat + 604800] it returns exactly the claims
    [id], [iat] and [exp]; from that instant on verification throws
    [jwt expired]. *)
Theorem refresh_token_roundtrip (w w' : World) (user : gmap string jval) (uid : string) :
  index.startup (process_env w) = Ok tt →
  process_env w' = process_env w →
  user !! "id" = Some (JStr uid) →
  ∃ tok,
    token.generateRefreshToken w user = Ok tok ∧
    dom (refresh_claims uid (clock w)) = ({[ "id"; "iat"; "exp" ]} : gset string) ∧
    refresh_claims uid (clock w) !! "exp" = Some (JNum (clock w + 604800)) ∧
    ((clock w' < clock w + 604800)%Z →
     token.verifyRefreshToken w' tok = Ok (refresh_claims uid (clock w))) ∧
    ((clock w + 604800 ≤ clock w')%Z →
     token.verifyRefreshToken w' tok = Throw "jwt expired").
Proof.
  intros (k & Hk & Hne)%startup_running Henv Hid.
  destruct (refresh_secret_running _ k Hk Hne) as (kr & Hkr & Hner).
  exists (jws_sign kr (refresh_claims uid (clock w))).
  split; [by apply generateRefreshToken_of_user|].
  split; [reflexivity|]. split; [reflexivity|].
  unfold token.verifyRefreshToken, refresh_claims. rewrite Henv, Hkr. split; intros Hc.
  - apply verify_signed; [assumption|reflexivity|assumption].
  - apply verify_expired; [assumption|reflexivity|assumption].
Qed.

Lemma refreshToken_no_row (w : World) (req : Request) (users : list User)
    (kr uid : string) (issued : Z) :
  token.REFRESH_SECRET (process_env w) = Some kr → kr ≠ "" →
  cookies req !! "refreshToken" = Some (jws_sign kr (refresh_claims uid issued)) →
  (clock w < issued + 604800)%Z →
  (∀ x, x ∈ users → id x ≠ uid) →
  authController.refreshToken w req users = (Respond invalid_refresh_token, users).
Proof.
  intros Hkr Hner Hc Hlt Hnone.
  unfold authController.refreshToken. rewrite Hc.
  rewrite (proj2 (truthy_str_Some _) (proj1 (jws_sign_compact kr _))).
  cbv beta iota delta [negb default from_option Datatypes.id].
  unfold token.verifyRefreshToken. rewrite Hkr.
  unfold refresh_claims. rewrite verify_signed by (assumption || reflexivity).
  rewrite stamped_other by discriminate. rewrite lookup_singleton_eq.
  rewrite (select_eq_absent id uid users Hnone). reflexivity.
Qed.

Lemma refreshToken_throws (w : World) (req : Request) (users : list User)
    (tok m : string) :
  cookies req !! "refreshToken" = Some tok → tok ≠ "" →
  token.verifyRefreshToken w tok = Throw m →
  authController.refreshToken w req users = (Respond (authController.invalid_refresh m), users).
Proof.
  intros Hc Hne Hv. unfold authController.refreshToken. rewrite Hc.
  rewrite (proj2 (truthy_str_Some _) Hne).
  cbv beta iota delta [negb default from_option Datatypes.id].
  rewrite Hv. reflexivity.
Qed.

(** The gate's verdict depends on the [Authorization] header alone. *)
Lemma authenticate_header_only `{Jws} (w : World) (req req2 : Request)
    (decoded : gmap string jval) :
  authMiddleware.authenticate w req = Next (set_user decoded req) →
  authorization req2 = authorization req →
  authMiddleware.authenticate w req2 = Next (set_user decoded req2).
Proof.
  unfold authMiddleware.authenticate. intros Ha ->.
  destruct (negb (truthy_str (authorization req))); [discriminate|].
  destruct (negb (truthy_str _)); [discriminate|].
  destruct (jwt.verify _ _ _) as [d|m]; [|discriminate].
  assert (Hu : user (set_user d req) = user (set_user decoded req)) by congruence.
  cbn [user set_user] in Hu. assert (d = decoded) as -> by congruence. reflexivity.
Qed.

(** X7: what the refresh handler refuses. No [refreshToken] cookie, or
    an empty one: 401. A cookie that does not verify under the refresh
    secret, such as a token signed with another key, or a token of this
    server that is seven days old: 403 with the verifier's message. A
    token that verifies but whose id is no row of the table: 401. None of
    these changes the table. *)
Theorem refreshToken_rejections (w : World) (req : Request) (users : list User) :
  (cookies req !! "refreshToken" = None ∨ cookies req !! "refreshToken" = Some "" →
   authController.refreshToken w req users = (Respond no_refresh_token, users)) ∧
  (∀ k c, cookies req !! "refreshToken" = Some (jws_sign k c) →
     token.REFRESH_SECRET (process_env w) ≠ Some k →
     ∃ m, authController.refreshToken w req users
          = (Respond (authController.invalid_refresh m), users)) ∧
  (∀ w0 uid tok,
     index.startup (process_env w0) = Ok tt → process_env w = process_env w0 →
     token.generateRefreshToken w0 {[ "id" := JStr uid ]} = Ok tok →
     cookies req !! "refreshToken" = Some tok →
     ((clock w0 + 604800 ≤ clock w)%Z →
      authController.refreshToken w req users
      = (Respond (authController.invalid_refresh "jwt expired"), users)) ∧
     ((clock w < clock w0 + 604800)%Z → (∀ x, x ∈ users → id x ≠ uid) →
      authController.refreshToken w req users = (Respond invalid_refresh_token, users))).
Proof.
  split; [|split].
  - intros [Hc|Hc]; unfold authController.refreshToken; rewrite Hc; reflexivity.
  - intros k c Hc Hk.
    destruct (verify_other_key c k (token.REFRESH_SECRET (process_env w)) (clock w) Hk)
      as [m Hm].
    exists m. apply (refreshToken_throws w req users (jws_sign k c) m Hc);
      [apply jws_sign_compact|exact Hm].
  - intros w0 uid tok (k & Hk & Hne)%startup_running Henv Hgen Hc.
    destruct (refresh_secret_running _ k Hk Hne) as (kr & Hkr & Hner).
    rewrite (generateRefreshToken_plain w0 kr uid Hkr Hner) in Hgen. injection Hgen as <-.
    split.
    + intros Hexp. apply (refreshToken_throws w req users _ _ Hc); [apply jws_sign_compact|].
      unfold token.verifyRefreshToken, refresh_claims. rewrite Henv, Hkr.
      apply verify_expired; [assumption|reflexivity|assumption].
    + intros Hlt Hnone.
      apply (refreshToken_no_row w req users kr uid (clock w0)); try assumption.
      by rewrite Henv.
Qed.

(** X5: deleting an account ends its refreshes, though not its access
    tokens. A user whose refresh cookie is answered 200 deletes the
    account with [DELETE /auth/user]; afterwards the same cookie is
    answered 401 by the refresh handler, while the bearer token that
    authorised the delete is still accepted by the gate on any further
    request: the gate reads the header and never the table. *)
Theorem deleted_account_cannot_refresh (w0 w : World) (req del : Request)
    (users : list User) (u : User) (decoded : gmap string jval) (uid rt : string) :
  index.startup (process_env w) = Ok tt → process_env w0 = process_env w →
  token.generateRefreshToken w0 {[ "id" := JStr uid ]} = Ok rt →
  (clock w < clock w0 + 604800)%Z →
  cookies req !! "refreshToken" = Some rt →
  NoDup (id <$> users) → u ∈ users → id u = uid → uid ≠ "" →
  method del = "DELETE" → path del = ["user"] →
  authMiddleware.authenticate w del = Next (set_user decoded del) →
  decoded !! "id" = Some (JStr uid) →
  let users' := snd (authRoute.handle w del users) in
  (∃ r, authController.refreshToken w req users = (Respond r, users) ∧ status r = 200%Z) ∧
  (∀ x, x ∈ users' ↔ x ∈ users ∧ id x ≠ uid) ∧
  authController.refreshToken w req users' = (Respond invalid_refresh_token, users') ∧
  (∀ req2, authorization req2 = authorization del →
     authMiddleware.authenticate w req2 = Next (set_user decoded req2)).
Proof.
  intros (k & Hk & Hne)%startup_running Henv Hgen Hlt Hc Hnd Hin Hu Hne' Hm Hp Hauth Hid users'.
  destruct (refresh_secret_running _ k Hk Hne) as (kr & Hkr & Hner).
  rewrite (generateRefreshToken_plain w0 kr uid) in Hgen by (by rewrite ?Henv).
  injection Hgen as <-.
  assert (Hdel : users' = List.filter (fun x => negb (bool_decide (uid = id x))) users).
  { assert (Hh : authRoute.handle w del users
                 = (Respond (user_deleted u),
                    List.filter (fun x => negb (bool_decide (uid = id x))) users)).
    { apply (handle_behind_gate w del users _ decoded); [|exact Hauth|].
      - apply not_public_method. rewrite Hm. discriminate.
      - apply dispatch_delete_current; [exact Hm|exact Hp|].
        by apply (deleteCurrentUser_found w _ users decoded uid u). }
    unfold users'. rewrite Hh. reflexivity. }
  split.
  { eexists. split.
    - apply (refreshToken_success w req users u k kr uid (clock w0)); try assumption.
      rewrite <- Hu. by apply select_eq_unique.
    - reflexivity. }
  split; [rewrite Hdel; apply elem_of_without|].
  split; [|intros req2 Hh; by apply (authenticate_header_only w del req2 decoded)].
  apply (refreshToken_no_row w req users' kr uid (clock w0)); try assumption.
  intros x Hx. rewrite Hdel in Hx. by apply elem_of_without in Hx as [_ Hx].
Qed.

Lemma dispatch_admin_delete (w : World) (req : Request) (users users' : list User)
    (target : string) (r : Response) :
  method req = "DELETE" → path req = ["user"; target] → target ≠ "" →
  express.run_chain [express.pure authMiddleware.requireAdmin; authController.deleteUser w]
    (set_params {[ "userId" := target ]} req) users = (Respond r, users') →
  express.dispatch (authRoute.protected_routes w) req users = (Respond r, users').
Proof.
  intros Hm Hp Hne Hr. unfold authRoute.protected_routes.
  rewrite dispatch_skip by (rewrite Hm; reflexivity).
  do 2 rewrite dispatch_skip by (rewrite Hm, Hp; reflexivity).
  apply (dispatch_hit _ _ _ _ _ _ _ {[ "userId" := target ]}); [|exact Hr].
  rewrite Hm, Hp. cbn [express.match_path].
  rewrite !bool_decide_eq_true_2 by reflexivity.
  rewrite (bool_decide_eq_false_2 _ Hne). reflexivity.
Qed.

Lemma dispatch_list_users (w : World) (req : Request) (users users' : list User)
    (r : Response) :
  method req = "GET" → path req = ["users"] →
  express.run_chain [express.pure authMiddleware.requireAdmin; authController.getUsers w]
    (set_params ∅ req) users = (Respond r, users') →
  express.dispatch (authRoute.protected_routes w) req users = (Respond r, users').
Proof.
  intros Hm Hp Hr. unfold authRoute.protected_routes.
  do 2 rewrite dispatch_skip by (rewrite Hm, Hp; reflexivity).
  apply (dispatch_hit _ _ _ _ _ _ _ ∅); [rewrite Hm, Hp; reflexivity|exact Hr].
Qed.

(** X15: a refresh token never opens an admin route, whatever the
    configuration. Presented as a bearer token to [GET /auth/users] or to
    [DELETE /auth/user/:userId], a refresh token of this server is
    answered 403 and the table is unchanged: either the gate refuses it
    (own refresh secret, or expired), or the gate takes it and
    [requireAdmin] finds no [is_admin] among its claims. *)
Theorem refresh_token_never_admin (w0 w : World) (req : Request) (users : list User)
    (uid tok target : string) :
  index.startup (process_env w) = Ok tt → process_env w0 = process_env w →
  token.generateRefreshToken w0 {[ "id" := JStr uid ]} = Ok tok →
  authorization req = Some ("Bearer " ++ tok) →
  (method req = "GET" ∧ path req = ["users"])
  ∨ (method req = "DELETE" ∧ path req = ["user"; target] ∧ target ≠ "") →
  ∃ r, authRoute.handle w req users = (Respond r, users) ∧ status r = 403%Z.
Proof.
  intros (k & Hk & Hne)%startup_running Henv Hgen Hh Hroute.
  destruct (refresh_secret_running _ k Hk Hne) as (kr & Hkr & Hner).
  rewrite (generateRefreshToken_plain w0 kr uid) in Hgen by (by rewrite ?Henv).
  injection Hgen as <-.
  assert (Hpub : authRoute.is_public req = false).
  { apply not_public_method. destruct Hroute as [[-> _]|[-> _]]; discriminate. }
  assert (Hgate : ∀ m,
    jwt.verify (jws_sign kr (refresh_claims uid (clock w0)))
      (authMiddleware.JWT_SECRET (process_env w)) (clock w) = Throw m →
    ∃ r, authRoute.handle w req users = (Respond r, users) ∧ status r = 403%Z).
  { intros m Hm. exists invalid_token. split; [|reflexivity].
    apply gate_refusal_is_final; [exact Hpub|].
    rewrite (authenticate_bearer w req _ Hh); try apply jws_sign_compact.
    rewrite Hm. reflexivity. }
  destruct (decide (kr = k)) as [->|Hdiff].
  - destruct (decide (clock w < clock w0 + 604800)%Z) as [Hlt|Hge].
    + assert (Hauth : authMiddleware.authenticate w req
                      = Next (set_user (refresh_claims uid (clock w0)) req)).
      { rewrite (authenticate_bearer w req _ Hh); try apply jws_sign_compact.
        unfold authMiddleware.JWT_SECRET, refresh_claims. rewrite Hk.
        rewrite verify_signed; [reflexivity|assumption|reflexivity|assumption]. }
      exists admin_required. split; [|reflexivity].
      apply (handle_behind_gate w req users users _ _ Hpub Hauth).
      destruct Hroute as [[Hm Hp]|(Hm & Hp & Ht)].
      * by apply dispatch_list_users.
      * by apply (dispatch_admin_delete w _ users users target).
    + apply (Hgate "jwt expired"). unfold authMiddleware.JWT_SECRET, refresh_claims.
      rewrite Hk. apply verify_expired; [assumption|reflexivity|lia].
  - destruct (verify_other_key (refresh_claims uid (clock w0)) kr
                (authMiddleware.JWT_SECRET (process_env w)) (clock w)) as [m Hm].
    { unfold authMiddleware.JWT_SECRET. rewrite Hk. congruence. }
    by apply (Hgate m).
Qed.
End refresh_tokens.

(** ** Registering and logging in *)

Lemma Ok_inj {A} (a b : A) : Ok a = Ok b → a = b.
Proof. intros [= ->]. reflexivity. Qed.

Lemma select_eq_app_new (col : User → string) (v : string) (users : list User) (row : User) :
  Forall (fun u => col u ≠ v) users → col row = v →
  supabase.select_eq col (Some (JStr v)) (users ++ [row]) = [row].
Proof.
  intros Hfresh Hrow. unfold supabase.select_eq. rewrite List.filter_app.
  fold (supabase.select_eq col (Some (JStr v)) users).
  rewrite (select_eq_none col (JStr v) users Hfresh). simpl.
  rewrite bool_decide_eq_true_2 by (symmetry; exact Hrow). reflexivity.
Qed.

Section register_and_login.
Context `{Jws} `{Bcrypt} `{Postgres}.

Lemma login_response (w : World) (req : Request) (users : list User) (u : User)
    (k kr : string) :
  process_env w !! "JWT_SECRET" = Some k → k ≠ "" →
  token.REFRESH_SECRET (process_env w) = Some kr → kr ≠ "" →
  truthy (req_body req !! "email") = true → truthy (req_body req !! "password") = true →
  supabase.select_eq types.email (req_body req !! "email") users = [u] →
  bcrypt_compare (default JNull (req_body req !! "password")) (types.password u) = Ok true →
  authController.login w req users =
    (Respond (logged_in w u
                (jws_sign k (jwt.stamped (identity_obj (id u) (types.email u) (types.is_admin u))
                               900 (clock w)))
                (jws_sign kr (refresh_claims (id u) (clock w)))),
     users).
Proof.
  intros Hk Hne Hkr Hner He Hp Hsel Hcmp.
  unfold authController.login. rewrite He, Hp, Hsel.
  cbn [supabase.single supabase.error supabase.data negb orb]. rewrite Hcmp.
  rewrite (generateAccessToken_plain w k _ Hk Hne) by reflexivity.
  rewrite (generateRefreshToken_plain w kr (id u) Hkr Hner).
  reflexivity.
Qed.

(** X8: a login with the email of an account and a password that
    verifies is answered 200 and leaves the table as it is. The body has
    the message, the access token and the user's [id], [email] and
    [is_admin]; the refresh token is in the [refreshToken] cookie only.
    The access token verifies to exactly the claims [id], [email],
    [is_admin], [iat], [exp] of that account, and the cookie's token
    verifies as a refresh token for its id. *)
Theorem login_issues_tokens (w : World) (req : Request) (users : list User) (u : User) :
  index.startup (process_env w) = Ok tt →
  method req = "POST" → path req = ["login"] → over_limit w = false →
  NoDup (types.email <$> users) → u ∈ users →
  req_body req !! "email" = Some (JStr (types.email u)) → types.email u ≠ "" →
  truthy (req_body req !! "password") = true →
  bcrypt_compare (default JNull (req_body req !! "password")) (types.password u) = Ok true →
  ∃ accessToken refreshToken,
    authRoute.handle w req users = (Respond (logged_in w u accessToken refreshToken), users) ∧
    accessToken ≠ refreshToken ∧
    jwt.verify accessToken (authMiddleware.JWT_SECRET (process_env w)) (clock w)
      = Ok (jwt.stamped (identity_obj (id u) (types.email u) (types.is_admin u)) 900 (clock w)) ∧
    dom (jwt.stamped (identity_obj (id u) (types.email u) (types.is_admin u)) 900 (clock w))
      = ({[ "id"; "email"; "is_admin"; "iat"; "exp" ]} : gset string) ∧
    token.verifyRefreshToken w refreshToken = Ok (refresh_claims (id u) (clock w)).
Proof.
  intros (k & Hk & Hne)%startup_running Hm Hp Hl Hnd Hin He Hmail Hpw Hcmp.
  destruct (refresh_secret_running _ k Hk Hne) as (kr & Hkr & Hner).
  eexists _, _. split.
  { apply handle_login; try assumption.
    apply (login_response w (set_params ∅ req) users u k kr); try assumption.
    - cbn [req_body set_params]. rewrite He. cbn [truthy]. by apply bool_decide_eq_true_2.
    - cbn [req_body set_params]. rewrite He. by apply select_eq_unique. }
  split.
  { intros Heq.
    pose proof (jws_open_sign k (jwt.stamped (identity_obj (id u) (types.email u)
                                                (types.is_admin u)) 900 (clock w))) as Ho.
    rewrite Heq in Ho.
    destruct (decide (kr = k)) as [->|Hd].
    - rewrite jws_open_sign in Ho. apply Ok_inj in Ho.
      apply (f_equal (lookup "email")) in Ho. discriminate Ho.
    - destruct (jws_open_other_key kr k (refresh_claims (id u) (clock w)) Hd) as [m Hm'].
      rewrite Hm' in Ho. discriminate Ho. }
  split.
  { unfold authMiddleware.JWT_SECRET. rewrite Hk.
    apply verify_signed; [assumption|reflexivity|lia]. }
  split; [reflexivity|].
  unfold token.verifyRefreshToken, refresh_claims. rewrite Hkr.
  apply verify_signed; [assumption|reflexivity|lia].
Qed.

Lemma register_conflict (w : World) (req : Request) (users : list User) (u : User) :
  truthy (req_body req !! "email") = true → truthy (req_body req !! "password") = true →
  supabase.select_eq types.email (req_body req !! "email") users = [u] →
  authController.register w req users = (Respond user_exists, users).
Proof.
  intros He Hp Hsel. unfold authController.register. rewrite He, Hp, Hsel. reflexivity.
Qed.


(** X10: the same email cannot be registered twice. After a
    registration that is answered 201, a second registration with that
    email, through the route and at any later time, is answered 409 and
    adds no row. *)
Theorem register_twice_conflict (w w2 : World) (req req2 : Request) (users : list User)
    (mail hashed : string) :
  index.startup (process_env w) = Ok tt →
  method req = "POST" → path req = ["register"] → over_limit w = false →
  req_body req !! "email" = Some (JStr mail) → mail ≠ "" →
  truthy (req_body req !! "password") = true →
  Forall (fun u => types.email u ≠ mail) users →
  bcrypt_hash (default JNull (req_body req !! "password")) 10 = Ok hashed →
  method req2 = "POST" → path req2 = ["register"] → over_limit w2 = false →
  req_body req2 !! "email" = Some (JStr mail) →
  truthy (req_body req2 !! "password") = true →
  let users' := snd (authRoute.handle w req users) in
  (∃ r, fst (authRoute.handle w req users) = Respond r ∧ status r = 201%Z) ∧
  length users' = S (length users) ∧
  authRoute.handle w2 req2 users' = (Respond user_exists, users').
Proof.
  intros (k & Hk & Hne)%startup_running Hm Hp Hl He Hmail Hpw Hfresh Hhash
         Hm2 Hp2 Hl2 He2 Hpw2 users'.
  destruct (refresh_secret_running _ k Hk Hne) as (kr & Hkr & Hner).
  pose proof (register_success w (set_params ∅ req) users k kr mail hashed
                Hk Hne Hkr Hner He Hmail Hpw Hfresh Hhash) as Hreg.
  cbv zeta in Hreg. apply (handle_register w req users _ _ Hm Hp Hl) in Hreg.
  unfold users'. rewrite Hreg. cbn [fst snd].
  split; [eexists; split; reflexivity|].
  split; [rewrite length_app; simpl; lia|].
  apply handle_register; try assumption.
  apply (register_conflict w2 _ _ (registered_row w mail hashed
           (authController.boolean_or_false (req_body req !! "is_admin")) users)).
  - cbn [req_body set_params]. rewrite He2. cbn [truthy]. by apply bool_decide_eq_true_2.
  - exact Hpw2.
  - cbn [req_body set_params]. rewrite He2. by apply select_eq_app_new.
Qed.

(** X11: an account that was registered can log in. After a
    registration answered 201, a login with the same email and a password
    that bcrypt verifies against the stored hash is answered 200; its
    access token verifies to claims with the email, the id the store gave
    the new row, and the [is_admin] that was stored. *)
Theorem register_then_login (w w2 : World) (req req2 : Request) (users : list User)
    (mail hashed : string) :
  index.startup (process_env w) = Ok tt → index.startup (process_env w2) = Ok tt →
  method req = "POST" → path req = ["register"] → over_limit w = false →
  req_body req !! "email" = Some (JStr mail) → mail ≠ "" →
  truthy (req_body req !! "password") = true →
  Forall (fun u => types.email u ≠ mail) users →
  bcrypt_hash (default JNull (req_body req !! "password")) 10 = Ok hashed →
  method req2 = "POST" → path req2 = ["login"] → over_limit w2 = false →
  req_body req2 !! "email" = Some (JStr mail) →
  truthy (req_body req2 !! "password") = true →
  bcrypt_compare (default JNull (req_body req2 !! "password")) hashed = Ok true →
  let users' := snd (authRoute.handle w req users) in
  let row := registered_row w mail hashed
               (authController.boolean_or_false (req_body req !! "is_admin")) users in
  ∃ accessToken refreshToken claims,
    authRoute.handle w2 req2 users'
      = (Respond (logged_in w2 row accessToken refreshToken), users') ∧
    jwt.verify accessToken (authMiddleware.JWT_SECRET (process_env w2)) (clock w2) = Ok claims ∧
    claims !! "id" = Some (JStr (id row)) ∧
    claims !! "email" = Some (JStr mail) ∧
    claims !! "is_admin"
      = Some (JBool (authController.boolean_or_false (req_body req !! "is_admin"))).
Proof.
  intros (k & Hk & Hne)%startup_running (k2 & Hk2 & Hne2)%startup_running
         Hm Hp Hl He Hmail Hpw Hfresh Hhash Hm2 Hp2 Hl2 He2 Hpw2 Hcmp users' row.
  destruct (refresh_secret_running _ k Hk Hne) as (kr & Hkr & Hner).
  destruct (refresh_secret_running _ k2 Hk2 Hne2) as (kr2 & Hkr2 & Hner2).
  pose proof (register_success w (set_params ∅ req) users k kr mail hashed
                Hk Hne Hkr Hner He Hmail Hpw Hfresh Hhash) as Hreg.
  cbv zeta in Hreg. apply (handle_register w req users _ _ Hm Hp Hl) in Hreg.
  unfold users'. rewrite Hreg. cbn [snd].
  eexists _, _, _. split.
  { apply handle_login; try assumption.
    apply (login_response w2 (set_params ∅ req2) _ row k2 kr2); try assumption.
    - cbn [req_body set_params]. rewrite He2. cbn [truthy]. by apply bool_decide_eq_true_2.
    - cbn [req_body set_params]. rewrite He2. by apply select_eq_app_new. }
  split.
  { unfold authMiddleware.JWT_SECRET. rewrite Hk2.
    apply verify_signed; [assumption|reflexivity|lia]. }
  repeat split.
Qed.

(** X13: the limiter stands before the two public handlers and before
    nothing else. When it refuses, a [POST] to [/auth/register] or
    [/auth/login], in whatever letter case the path is written, is
    answered 429 whatever the body, and nothing is stored. Any other
    request is served the same whether or not the limiter would refuse
    it. *)
Theorem rate_limiter_guards_public_routes (w : World) (req : Request) (users : list User) :
  (over_limit w = true → authRoute.is_public req = true →
   authRoute.handle w req users = (Respond too_many_attempts, users)) ∧
  (authRoute.is_public req = false →
   authRoute.handle w req users
   = authRoute.handle {| process_env := process_env w; clock := clock w;
                         over_limit := negb (over_limit w) |} req users).
Proof.
  split.
  - intros Hl [Hm Hp]%andb_prop. apply bool_decide_eq_true in Hm.
    unfold authRoute.handle, authRoute.router, authRoute.public_routes.
    cbn [app express.dispatch]. rewrite !match_path_lit, Hm.
    change (express.handles_method "POST" "POST") with true.
    change (to_lower "register") with "register". change (to_lower "login") with "login".
    destruct (bool_decide (to_lower <$> path req = ["register"])).
    + cbn [express.run_chain express.pure]. unfold rateLimit.authRateLimiter.
      rewrite Hl. reflexivity.
    + cbn [orb] in Hp. rewrite Hp.
      cbn [express.run_chain express.pure]. unfold rateLimit.authRateLimiter.
      rewrite Hl. reflexivity.
  - intros Hpub. rewrite !(handle_protected _ _ _ Hpub). reflexivity.
Qed.
End register_and_login.

(** ** Invariants of the auth router *)

Lemma run_chain_keeps Inv Good (hs : list express.Handler) :
  Forall (handler_keeps Inv Good) hs → handler_keeps Inv Good (express.run_chain hs).
Proof.
  induction 1 as [|h hs Hh _ IH]; intros req users Hinv; cbn [express.run_chain].
  - split; [exact Hinv|discriminate].
  - destruct (Hh req users Hinv) as [Hi Hg].
    destruct (h req users) as [[r|req'] users']; cbn [fst snd] in *.
    + split; [exact Hi|]. intros r' [= <-]. by apply Hg.
    + by apply IH.
Qed.

Lemma dispatch_keeps Inv Good (layers : list express.Layer) :
  Forall (layer_keeps Inv Good) layers → handler_keeps Inv Good (express.dispatch layers).
Proof.
  induction 1 as [|l layers Hl _ IH]; intros req users Hinv; cbn [express.dispatch].
  - split; [exact Hinv|discriminate].
  - destruct l as [h|m pat hs]; cbn [layer_keeps] in Hl.
    + destruct (Hl req users Hinv) as [Hi Hg].
      destruct (h req users) as [[r|req'] users']; cbn [fst snd] in *.
      * split; [exact Hi|]. intros r' [= <-]. by apply Hg.
      * by apply IH.
    + destruct (if express.handles_method m (method req)
                then express.match_path pat (path req)
                else None) as [ps|]; [|by apply IH].
      destruct (run_chain_keeps Inv Good hs Hl (set_params ps req) users Hinv) as [Hi Hg].
      destruct (express.run_chain hs (set_params ps req) users) as [[r|req'] users'];
        cbn [fst snd] in *.
      * split; [exact Hi|]. intros r' [= <-]. by apply Hg.
      * by apply IH.
Qed.

Lemma pure_keeps Inv Good (f : Request → Outcome) :
  (∀ req r, f req = Respond r → Good r) → handler_keeps Inv Good (express.pure f).
Proof. intros Hf req users Hinv. split; [exact Hinv|]. intros r. apply Hf. Qed.

Lemma NoDup_fmap_filter {A B} (f : A → B) (P : A → bool) (l : list A) :
  NoDup (f <$> l) → NoDup (f <$> List.filter P l).
Proof.
  induction l as [|a l IH]; [done|]. rewrite fmap_cons, NoDup_cons. intros [Ha Hnd].
  simpl. destruct (P a); [|by apply IH].
  rewrite fmap_cons, NoDup_cons. split; [|by apply IH].
  intros Hin. apply Ha. apply list_elem_of_fmap in Hin as (x & -> & Hx).
  apply list_elem_of_fmap. exists x. split; [reflexivity|].
  by apply elem_of_filter_bool in Hx as [Hx _].
Qed.

(** With no duplicate in the column, a filter value selects the one row
    that has it, or no row has it. *)
Lemma select_eq_one_or_none (col : User → string) (v : jval) (users : list User) :
  NoDup (col <$> users) →
  (∃ u, supabase.select_eq col (Some v) users = [u])
  ∨ (supabase.select_eq col (Some v) users = []
     ∧ ∀ x, x ∈ users → col x ≠ supabase.text_of v).
Proof.
  induction users as [|a l IH]; intros Hnd.
  - right. split; [reflexivity|]. intros x Hx. by apply elem_of_nil in Hx.
  - rewrite fmap_cons in Hnd. apply NoDup_cons in Hnd as [Ha Hnd].
    unfold supabase.select_eq in *. simpl.
    destruct (decide (supabase.text_of v = col a)) as [Heq|Hneq].
    + left. exists a. rewrite (bool_decide_eq_true_2 _ Heq). f_equal.
      apply (select_eq_none col v). apply Forall_forall. intros x Hx Hc.
      apply Ha. rewrite <- Heq, <- Hc. apply list_elem_of_fmap. eauto.
    + rewrite (bool_decide_eq_false_2 _ Hneq).
      destruct (IH Hnd) as [[u Hu]|[Hnil Hnone]]; [left; eauto|].
      right. split; [exact Hnil|].
      intros x [->|Hx]%elem_of_cons; [congruence|by apply Hnone].
Qed.

Lemma sign_nonempty `{Jws} (payload : gmap string jval) (secret : option string)
    (expiresIn now : Z) (tok : string) :
  jwt.sign payload secret expiresIn now = Ok tok → tok ≠ "".
Proof.
  unfold jwt.sign. repeat case_match; intros [= <-]; apply jws_sign_compact.
Qed.

Lemma authenticate_next `{Jws} (w : World) (req req' : Request) :
  authMiddleware.authenticate w req = Next req' → ∃ decoded, req' = set_user decoded req.
Proof.
  unfold authMiddleware.authenticate. repeat case_match; intros [= <-]; eauto.
Qed.

(** One route whose chain is a middleware and then a handler that always
    answers: the request does not match and goes on, or it is answered
    here, by the middleware with the store untouched or by the handler
    with the handler's effect. *)
Lemma dispatch_guarded_route (Eff : list User → list User → Prop) (m : string)
    (pat : list express.Segment) (f : Request → Outcome) (h : express.Handler)
    (rest : list express.Layer) (req : Request) (users : list User) :
  (∀ rq us, ∃ r us', h rq us = (Respond r, us') ∧ Eff us us') →
  express.dispatch (express.Route m pat [express.pure f; h] :: rest) req users
    = express.dispatch rest req users
  ∨ ∃ r us',
      express.dispatch (express.Route m pat [express.pure f; h] :: rest) req users
        = (Respond r, us') ∧
      (us' = users
       ∨ (express.handles_method m (method req) = true
          ∧ is_Some (express.match_path pat (path req)) ∧ Eff users us')).
Proof.
  intros Hh. cbn [express.dispatch].
  destruct (express.handles_method m (method req)) eqn:Hm; [|by left].
  destruct (express.match_path pat (path req)) as [ps|] eqn:Hps; [|by left].
  right. cbn [express.run_chain express.pure].
  destruct (f (set_params ps req)) as [r|rq]; [by eauto|].
  destruct (Hh rq users) as (r & us' & -> & He). eauto 10.
Qed.

Lemma dispatch_plain_route (Eff : list User → list User → Prop) (m : string)
    (pat : list express.Segment) (h : express.Handler)
    (rest : list express.Layer) (req : Request) (users : list User) :
  (∀ rq us, ∃ r us', h rq us = (Respond r, us') ∧ Eff us us') →
  express.dispatch (express.Route m pat [h] :: rest) req users
    = express.dispatch rest req users
  ∨ ∃ r us',
      express.dispatch (express.Route m pat [h] :: rest) req users = (Respond r, us') ∧
      express.handles_method m (method req) = true
      ∧ is_Some (express.match_path pat (path req)) ∧ Eff users us'.
Proof.
  intros Hh. cbn [express.dispatch].
  destruct (express.handles_method m (method req)) eqn:Hm; [|by left].
  destruct (express.match_path pat (path req)) as [ps|] eqn:Hps; [|by left].
  right. cbn [express.run_chain].
  destruct (Hh (set_params ps req) users) as (r & us' & -> & He). eauto 10.
Qed.

Ltac route_cases Hx :=
  match type of Hx with
  | _ ∨ _ =>
      match goal with
      | |- context [express.dispatch (?l :: ?rest) ?req ?users] =>
          let r := fresh "r" in
          let us' := fresh "us'" in
          destruct Hx as [Hx | (r & us' & Hx & Heff)];
          [ replace (express.dispatch (l :: rest) req users)
              with (express.dispatch rest req users) by (symmetry; exact Hx)
          | replace (express.dispatch (l :: rest) req users)
              with (Respond r, us') by (symmetry; exact Hx) ];
          clear Hx
      end
  end.

Ltac guarded_route Hh :=
  match goal with
  | |- context [express.dispatch
                  (express.Route ?m ?pat [express.pure ?f; ?h] :: ?rest) ?req ?users] =>
      let Hx := fresh "Hx" in
      pose proof (dispatch_guarded_route _ m pat f h rest req users Hh) as Hx;
      route_cases Hx
  end.

Ltac plain_route Hh :=
  match goal with
  | |- context [express.dispatch (express.Route ?m ?pat [?h] :: ?rest) ?req ?users] =>
      let Hx := fresh "Hx" in
      pose proof (dispatch_plain_route _ m pat h rest req users Hh) as Hx;
      route_cases Hx
  end.

Section router_invariants.
Context `{Jws} `{Bcrypt} `{Postgres}.

Lemma login_frame (w : World) (req : Request) (users : list User) :
  ∃ r, authController.login w req users = (Respond r, users).
Proof. unfold authController.login. repeat case_match; eauto. Qed.

Lemma refreshToken_frame (w : World) (req : Request) (users : list User) :
  ∃ r, authController.refreshToken w req users = (Respond r, users) ∧ set_cookie r = None.
Proof. unfold authController.refreshToken. repeat case_match; eauto. Qed.

Lemma getUser_frame (w : World) (req : Request) (users : list User) :
  ∃ r, authController.getUser w req users = (Respond r, users) ∧ set_cookie r = None.
Proof. unfold authController.getUser. repeat case_match; eauto. Qed.

Lemma register_keeps_emails (w : World) (req : Request) (users : list User) :
  NoDup (types.email <$> users) →
  NoDup (types.email <$> snd (authController.register w req users)).
Proof.
  intros Hnd. unfold authController.register.
  destruct (negb (truthy (req_body req !! "email")) || negb (truthy (req_body req !! "password")))
    eqn:Hfalsy; [exact Hnd|].
  apply orb_false_elim in Hfalsy as [He _]. apply negb_false_iff in He.
  destruct (req_body req !! "email") as [v|] eqn:Hv; [|discriminate].
  destruct (select_eq_one_or_none types.email v users Hnd) as [[u Hu]|[Hnil Hnone]].
  - rewrite Hu. exact Hnd.
  - rewrite Hnil. cbn [supabase.single supabase.data default from_option Datatypes.id].
    destruct (bcrypt_hash _ _) as [hashed|m]; [|exact Hnd].
    unfold supabase.insert. cbn [supabase.error supabase.data].
    assert (Hnew : NoDup (types.email <$>
              (users ++ [registered_row w (supabase.text_of v) hashed
                           (authController.boolean_or_false (req_body req !! "is_admin"))
                           users])%list)).
    { rewrite fmap_app. apply NoDup_app. split; [exact Hnd|]. split.
      - intros x Hx [->|Hc%elem_of_nil]%elem_of_cons; [|done].
        apply list_elem_of_fmap in Hx as (y & Hy & Hin). by apply (Hnone y Hin).
      - apply NoDup_singleton. }
    repeat case_match; exact Hnew.
Qed.

Lemma delete_keeps_emails (v : option jval) (users : list User) :
  NoDup (types.email <$> users) →
  NoDup (types.email <$> snd (supabase.delete_eq_id v users)).
Proof. intros Hnd. unfold supabase.delete_eq_id. cbn [snd]. by apply NoDup_fmap_filter. Qed.

(** X12: no request to the auth router makes two accounts share an
    email. If the emails in the table are pairwise distinct before a
    request they are so after it, whatever the request is: [register]
    only adds a row when no row has the email, the two deletes only remove
    rows, and nothing else writes. *)
Theorem emails_stay_unique (w : World) (req : Request) (users : list User) :
  NoDup (types.email <$> users) →
  NoDup (types.email <$> snd (authRoute.handle w req users)).
Proof.
  intros Hnd.
  apply (dispatch_keeps (fun us => NoDup (types.email <$> us)) (fun _ => True)
           (authRoute.router w)); [|exact Hnd].
  assert (Hpure : ∀ f, handler_keeps (fun us => NoDup (types.email <$> us)) (fun _ => True)
                         (express.pure f)).
  { intros f. by apply pure_keeps. }
  assert (Hframe : ∀ h : express.Handler,
            (∀ rq us, ∃ r, h rq us = (Respond r, us)) →
            handler_keeps (fun us => NoDup (types.email <$> us)) (fun _ => True) h).
  { intros h Hh rq us Hi. destruct (Hh rq us) as [r ->]. by split. }
  unfold authRoute.router, authRoute.public_routes, authRoute.protected_routes.
  cbn [app]. repeat (apply Forall_cons_2 || apply Forall_nil_2); cbn [layer_keeps];
    repeat (apply Forall_cons_2 || apply Forall_nil_2); try apply Hpure.
  - intros rq us Hi. split; [by apply register_keeps_emails|done].
  - apply Hframe. apply login_frame.
  - apply Hframe. intros rq us. destruct (getUser_frame w rq us) as (r & -> & _). eauto.
  - apply Hframe. intros rq us. destruct (refreshToken_frame w rq us) as (r & -> & _). eauto.
  - apply Hframe. intros rq us. eexists. reflexivity.
  - intros rq us Hi. split; [|done]. unfold authController.deleteUser.
    pose proof (delete_keeps_emails (JStr <$> params rq !! "id") us Hi) as Hd.
    destruct (supabase.delete_eq_id _ us) as [res us']. cbn [snd] in Hd.
    by destruct (supabase.error res).
  - intros rq us Hi. split; [|done]. unfold authController.deleteCurrentUser.
    destruct (negb _); [exact Hi|].
    pose proof (delete_keeps_emails (user rq ≫= lookup "id") us Hi) as Hd.
    destruct (supabase.delete_eq_id _ us) as [res us']. cbn [snd] in Hd.
    by destruct (supabase.error res).
Qed.
Lemma set_cookie_none_ok (w : World) (r : Response) :
  set_cookie r = None → refresh_cookie_only w r.
Proof. intros Hn c Hc. congruence. Qed.

Lemma tokens_ok {A B} (ra : result A) (rb : result B) (a : A) (b : B) :
  (x ← ra; y ← rb; mret (x, y)) = Ok (a, b) → ra = Ok a ∧ rb = Ok b.
Proof. destruct ra, rb; simpl; intros [=]; subst; done. Qed.

Lemma register_effect (w : World) (req : Request) (users : list User) :
  ∃ r users', authController.register w req users = (Respond r, users') ∧
    (users' = users ∨ ∃ row, users' = (users ++ [row])%list) ∧
    refresh_cookie_only w r.
Proof.
  unfold authController.register, supabase.insert.
  cbn [supabase.error supabase.data].
  repeat case_match; subst;
    try (eexists _, _; split; [reflexivity|];
         split; [eauto|by apply set_cookie_none_ok]).
  eexists _, _. split; [reflexivity|]. split; [eauto|].
  intros c [= <-]. cbn.
  match goal with E : _ = Ok (_, _) |- _ => apply tokens_ok in E; destruct E as [_ Hrt] end.
  apply sign_nonempty in Hrt.
  split; [by right|]. repeat split. left. by repeat split.
Qed.

Lemma login_cookie (w : World) (req : Request) (users : list User) :
  ∃ r, authController.login w req users = (Respond r, users) ∧ refresh_cookie_only w r.
Proof.
  unfold authController.login.
  repeat case_match; subst;
    try (eexists; split; [reflexivity|]; by apply set_cookie_none_ok).
  eexists. split; [reflexivity|].
  intros c [= <-]. cbn.
  match goal with E : _ = Ok (_, _) |- _ => apply tokens_ok in E; destruct E as [_ Hrt] end.
  apply sign_nonempty in Hrt.
  split; [by left|]. repeat split. left. by repeat split.
Qed.

Lemma deleteUser_effect (w : World) (req : Request) (users : list User) :
  ∃ r users', authController.deleteUser w req users = (Respond r, users') ∧
    (∃ v, users' = List.filter (fun u => negb (supabase.eq_filter v (id u))) users) ∧
    set_cookie r = None.
Proof.
  unfold authController.deleteUser, supabase.delete_eq_id.
  repeat case_match; eauto 10.
Qed.

Lemma deleteCurrentUser_effect (w : World) (req : Request) (users : list User) :
  ∃ r users', authController.deleteCurrentUser w req users = (Respond r, users') ∧
    (users' = users
     ∨ ∃ v, users' = List.filter (fun u => negb (supabase.eq_filter v (id u))) users) ∧
    set_cookie r = None.
Proof.
  unfold authController.deleteCurrentUser, supabase.delete_eq_id.
  repeat case_match; eauto 10.
Qed.

Lemma middleware_no_cookie (w : World) (req : Request) (r : Response) :
  (authMiddleware.authenticate w req = Respond r → set_cookie r = None) ∧
  (authMiddleware.requireAdmin req = Respond r → set_cookie r = None) ∧
  (∀ p, authMiddleware.requireOwnerOrAdmin p req = Respond r → set_cookie r = None) ∧
  (rateLimit.authRateLimiter w req = Respond r → set_cookie r = None).
Proof.
  unfold authMiddleware.authenticate, authMiddleware.requireAdmin,
    authMiddleware.requireOwnerOrAdmin, rateLimit.authRateLimiter.
  repeat split; intros; repeat case_match; simplify_eq; reflexivity.
Qed.

(** X14: the only cookie the auth router ever sets is the refresh
    cookie. Whatever the request, if the response sets a cookie then the
    status is 200 or 201 and the cookie is named [refreshToken], is
    HTTP-only, [SameSite=strict], on path [/], and secure exactly when
    [NODE_ENV] is [production]; it either carries a non-empty token with a
    max-age of seven days, or it is the cleared cookie of [logout] (empty
    value, expiry at the epoch). *)
Theorem only_refresh_cookie_is_set (w : World) (req : Request) (users : list User)
    (r : Response) :
  fst (authRoute.handle w req users) = Respond r → refresh_cookie_only w r.
Proof.
  apply (dispatch_keeps (fun _ => True) (refresh_cookie_only w) (authRoute.router w));
    [|exact I].
  assert (Hresp : ∀ h : express.Handler,
            (∀ rq us, ∃ r' us', h rq us = (Respond r', us') ∧ refresh_cookie_only w r') →
            handler_keeps (fun _ => True) (refresh_cookie_only w) h).
  { intros h Hh rq us _. destruct (Hh rq us) as (r' & us' & -> & Hc).
    split; [exact I|]. by intros ? [= <-]. }
  assert (Hmw : ∀ f : Request → Outcome,
            (∀ rq r', f rq = Respond r' → set_cookie r' = None) →
            handler_keeps (fun _ => True) (refresh_cookie_only w) (express.pure f)).
  { intros f Hf. apply pure_keeps. intros rq r' Hr. apply set_cookie_none_ok. by eapply Hf. }
  unfold authRoute.router, authRoute.public_routes, authRoute.protected_routes.
  cbn [app]. repeat (apply Forall_cons_2 || apply Forall_nil_2); cbn [layer_keeps];
    repeat (apply Forall_cons_2 || apply Forall_nil_2).
  - apply Hmw. intros rq r'. apply (middleware_no_cookie w).
  - apply Hresp. intros rq us. destruct (register_effect w rq us) as (r' & us' & -> & _ & Hc).
    eauto.
  - apply Hmw. intros rq r'. apply (middleware_no_cookie w).
  - apply Hresp. intros rq us. destruct (login_cookie w rq us) as (r' & -> & Hc). eauto.
  - apply Hmw. intros rq r'. apply (middleware_no_cookie w).
  - apply Hmw. intros rq r'. apply (middleware_no_cookie w).
  - apply Hresp. intros rq us. destruct (getUser_frame w rq us) as (r' & -> & Hc).
    eauto using set_cookie_none_ok.
  - apply Hresp. intros rq us. destruct (refreshToken_frame w rq us) as (r' & -> & Hc).
    eauto using set_cookie_none_ok.
  - apply Hmw. intros rq r'. apply (middleware_no_cookie w).
  - apply Hresp. intros rq us. eexists _, _. split; [reflexivity|].
    by apply set_cookie_none_ok.
  - apply Hmw. intros rq r'. apply (middleware_no_cookie w).
  - apply Hresp. intros rq us. destruct (deleteUser_effect w rq us) as (r' & us' & -> & _ & Hc).
    eauto using set_cookie_none_ok.
  - apply Hresp. intros rq us.
    destruct (deleteCurrentUser_effect w rq us) as (r' & us' & -> & _ & Hc).
    eauto using set_cookie_none_ok.
  - apply Hresp. intros rq us. eexists _, _. split; [reflexivity|].
    intros c [= <-]. cbn. split; [by left|]. repeat split. right. by repeat split.
Qed.

(** X17: the table changes only through a registration or a DELETE.
    After any request the table is what it was, or the request was a
    [POST] to [/auth/register] (in any letter case) and one row was
    appended, or its method was DELETE and the rows matching one id
    filter were removed. In particular no GET or HEAD, no login, no
    refresh and no logout writes. *)
Theorem table_changes_only_by_register_or_delete (w : World) (req : Request)
    (users : list User) :
  table_effect req users (snd (authRoute.handle w req users)).
Proof.
  pose (removed := fun us us' : list User =>
          ∃ v, us' = List.filter (fun u => negb (supabase.eq_filter v (id u))) us).
  assert (Hreg : ∀ rq us, ∃ r us', authController.register w rq us = (Respond r, us')
                   ∧ (us' = us ∨ ∃ row, us' = (us ++ [row])%list)).
  { intros rq us. destruct (register_effect w rq us) as (r & us' & -> & He & _). eauto. }
  assert (Hlogin : ∀ rq us, ∃ r us', authController.login w rq us = (Respond r, us') ∧ us' = us).
  { intros rq us. destruct (login_frame w rq us) as (r & ->). eauto. }
  assert (Hget : ∀ rq us, ∃ r us', authController.getUser w rq us = (Respond r, us') ∧ us' = us).
  { intros rq us. destruct (getUser_frame w rq us) as (r & -> & _). eauto. }
  assert (Hrefresh : ∀ rq us, ∃ r us',
            authController.refreshToken w rq us = (Respond r, us') ∧ us' = us).
  { intros rq us. destruct (refreshToken_frame w rq us) as (r & -> & _). eauto. }
  assert (Hlist : ∀ rq us, ∃ r us', authController.getUsers w rq us = (Respond r, us') ∧ us' = us).
  { intros rq us. eexists _, _. split; reflexivity. }
  assert (Hdel : ∀ rq us, ∃ r us',
            authController.deleteUser w rq us = (Respond r, us') ∧ removed us us').
  { intros rq us. destruct (deleteUser_effect w rq us) as (r & us' & -> & He & _). eauto. }
  assert (Hdelme : ∀ rq us, ∃ r us',
            authController.deleteCurrentUser w rq us = (Respond r, us')
            ∧ (us' = us ∨ removed us us')).
  { intros rq us. destruct (deleteCurrentUser_effect w rq us) as (r & us' & -> & He & _).
    eauto. }
  assert (Hout : ∀ rq us, ∃ r us', authController.logout w rq us = (Respond r, us') ∧ us' = us).
  { intros rq us. eexists _, _. split; reflexivity. }
  unfold authRoute.handle, authRoute.router, authRoute.public_routes.
  cbn [app].
  (* POST /register *)
  guarded_route Hreg.
  2:{ cbn [snd]. destruct Heff as [->|(Hm & Hp & [->|[row ->]])]; [by left|by left|].
      right. left. rewrite handles_method_other in Hm by discriminate.
      apply bool_decide_eq_true in Hm. split; [done|]. split; [|eauto].
      rewrite match_path_lit in Hp.
      destruct (decide (to_lower <$> path req = ["register"])); [done|].
      rewrite bool_decide_eq_false_2 in Hp by done. by destruct Hp. }
  (* POST /login *)
  guarded_route Hlogin.
  2:{ cbn [snd]. left. by destruct Heff as [->|(_ & _ & ->)]. }
  (* the gate *)
  cbn [express.dispatch express.pure].
  destruct (authMiddleware.authenticate w req) as [r|req'] eqn:Hauth; [by left|].
  apply authenticate_next in Hauth as [decoded ->].
  change (table_effect (set_user decoded req) users
            (snd (express.dispatch (authRoute.protected_routes w)
                    (set_user decoded req) users))).
  generalize (set_user decoded req). clear req decoded. intros req.
  unfold authRoute.protected_routes.
  (* GET /user/:userId, /refresh-token, /users *)
  guarded_route Hget.
  2:{ cbn [snd]. left. by destruct Heff as [->|(_ & _ & ->)]. }
  plain_route Hrefresh.
  2:{ cbn [snd]. left. by destruct Heff as (_ & _ & ->). }
  guarded_route Hlist.
  2:{ cbn [snd]. left. by destruct Heff as [->|(_ & _ & ->)]. }
  (* DELETE /user/:userId, /user *)
  guarded_route Hdel.
  2:{ cbn [snd]. destruct Heff as [->|(Hm & _ & He)]; [by left|]. right. right.
      rewrite handles_method_other in Hm by discriminate.
      apply bool_decide_eq_true in Hm. by split. }
  plain_route Hdelme.
  2:{ cbn [snd]. destruct Heff as (Hm & _ & [->|He]); [by left|]. right. right.
      rewrite handles_method_other in Hm by discriminate.
      apply bool_decide_eq_true in Hm. by split. }
  (* POST /logout *)
  plain_route Hout.
  2:{ cbn [snd]. left. by destruct Heff as (_ & _ & ->). }
  by left.
Qed.
End router_invariants.

(** ** The progress router *)

Lemma routing_skip {S : Type} (m : string) (pat : list express.Segment)
    (hs : list (routing.Handler S)) (rest : list (routing.Layer S)) (req : Request) (s : S) :
  (if express.handles_method m (method req) then express.match_path pat (path req) else None) = None →
  routing.dispatch (routing.Route m pat hs :: rest) req s = routing.dispatch rest req s.
Proof. intros Hn. cbn [routing.dispatch]. rewrite Hn. reflexivity. Qed.

Lemma routing_hit {S : Type} (m : string) (pat : list express.Segment)
    (hs : list (routing.Handler S)) (rest : list (routing.Layer S)) (req : Request) (s : S)
    (ps : gmap string string) :
  (if express.handles_method m (method req) then express.match_path pat (path req) else None) = Some ps →
  (∃ r s', routing.run_chain hs (set_params ps req) s = (Respond r, s')) →
  routing.dispatch (routing.Route m pat hs :: rest) req s
  = routing.run_chain hs (set_params ps req) s.
Proof. intros Hm (r & s' & Hr). cbn [routing.dispatch]. rewrite Hm, Hr. reflexivity. Qed.

Lemma routing_gate {S : Type} (f : Request → Outcome) (rest : list (routing.Layer S))
    (req : Request) (s : S) :
  routing.dispatch (routing.Use (routing.pure f) :: rest) req s =
    match f req with
    | Respond r => (Respond r, s)
    | Next req' => routing.dispatch rest req' s
    end.
Proof. cbn [routing.dispatch routing.pure]. by destruct (f req). Qed.





Section progress_router.
Context `{Jws} {S : Type}.
Variables getProgress createProgress updateProgress deleteProgress
          getLeaderBoard getSimilarProgress : World → routing.Handler S.

Local Abbreviation progress :=
  (progressRoute.handle getProgress createProgress updateProgress deleteProgress
     getLeaderBoard getSimilarProgress).

(** X18: the leaderboard is the one public route of the progress router.
    A [GET] or [HEAD] of [/progress/leaderboard], in whatever letter case
    the path is written, is answered by the rate limiter or by
    [getLeaderBoard], whatever credential the request carries; every
    other request the gate refuses gets the gate's response and reaches
    no handler. *)
Theorem leaderboard_is_the_public_route (w : World) (req : Request) (s : S) :
  answers getLeaderBoard →
  (method req = "GET" ∨ method req = "HEAD" → to_lower <$> path req = ["leaderboard"] →
   progress w req s =
     if over_limit w then (Respond too_many_requests, s)
     else getLeaderBoard w (set_params ∅ req) s) ∧
  (¬ ((method req = "GET" ∨ method req = "HEAD")
      ∧ to_lower <$> path req = ["leaderboard"]) →
   ∀ r, authMiddleware.authenticate w req = Respond r → progress w req s = (Respond r, s)).
Proof.
  intros Hans. unfold progressRoute.handle, progressRoute.router. split.
  - intros Hm Hp.
    assert (Hc : routing.run_chain
                   [routing.pure (progressRoute.progressRateLimiter w); getLeaderBoard w]
                   (set_params ∅ req) s
                 = if over_limit w then (Respond too_many_requests, s)
                   else getLeaderBoard w (set_params ∅ req) s).
    { cbn [routing.run_chain routing.pure]. unfold progressRoute.progressRateLimiter.
      destruct (over_limit w); [reflexivity|].
      destruct (Hans w (set_params ∅ req) s) as (r & s' & ->). reflexivity. }
    rewrite <- Hc. apply routing_hit.
    + rewrite handles_method_get, match_path_lit.
      change (to_lower "leaderboard") with "leaderboard".
      rewrite (bool_decide_eq_true_2 _ Hp).
      destruct Hm as [-> | ->]; reflexivity.
    + rewrite Hc. destruct (over_limit w); [eauto|]. apply Hans.
  - intros Hno r Hr. rewrite routing_skip, routing_gate, Hr; [reflexivity|].
    rewrite handles_method_get, match_path_lit.
    change (to_lower "leaderboard") with "leaderboard".
    destruct (decide (to_lower <$> path req = ["leaderboard"])) as [Hp|Hp].
    + rewrite (bool_decide_eq_false_2 (method req = "GET")),
        (bool_decide_eq_false_2 (method req = "HEAD"));
        [reflexivity|intros Hm; apply Hno; by auto..].
    + rewrite (bool_decide_eq_false_2 _ Hp). by destruct (_ || _).
Qed.


End progress_router.

(** ** What the progress handlers take from a body *)

Lemma collect_inr (fields : list string) (body updates updates' : gmap string jval)
    (has has' : bool) :
  progressController.collect fields body updates has = inr (updates', has') →
  (∀ f, f ∈ fields → absent_or_number body f) ∧
  (∀ f, updates' !! f =
          if bool_decide (f ∈ fields) then
            match body !! f with Some v => Some v | None => updates !! f end
          else updates !! f) ∧
  (has' = true ↔ has = true ∨ ∃ f, f ∈ fields ∧ is_Some (body !! f)).
Proof.
  revert updates has. induction fields as [|f0 rest IH]; intros updates has.
  - intros [= <- <-]. split; [|split].
    + intros f Hf. by apply elem_of_nil in Hf.
    + intros f. rewrite bool_decide_eq_false_2; [reflexivity|]. apply not_elem_of_nil.
    + split; [by left|]. intros [Hh|(f & Hf & _)]; [done|]. by apply elem_of_nil in Hf.
  - cbn [progressController.collect].
    destruct (body !! f0) as [v0|] eqn:E0.
    + destruct v0 as [|b|n|t]; try discriminate.
      intros Hc. destruct (IH _ _ Hc) as (Hnum & Hlook & Hhas). split; [|split].
      * intros f [->|Hf]%elem_of_cons; [right; eauto|by apply Hnum].
      * intros f. rewrite (Hlook f).
        destruct (decide (f = f0)) as [->|Hne].
        -- rewrite (bool_decide_eq_true_2 (f0 ∈ f0 :: rest)) by apply list_elem_of_here.
           rewrite E0, lookup_insert_eq. by destruct (bool_decide _).
        -- rewrite lookup_insert_ne by done.
           destruct (decide (f ∈ rest)) as [Hin|Hout].
           ++ rewrite !bool_decide_eq_true_2; [reflexivity|by apply list_elem_of_further|done].
           ++ rewrite !bool_decide_eq_false_2; [reflexivity| |done].
              intros [?|?]%elem_of_cons; done.
      * rewrite Hhas. split; [intros _|by left]. right. exists f0.
        split; [apply list_elem_of_here|]. rewrite E0. eauto.
    + intros Hc. destruct (IH _ _ Hc) as (Hnum & Hlook & Hhas). split; [|split].
      * intros f [->|Hf]%elem_of_cons; [by left|by apply Hnum].
      * intros f. rewrite (Hlook f).
        destruct (decide (f = f0)) as [->|Hne].
        -- rewrite (bool_decide_eq_true_2 (f0 ∈ f0 :: rest)) by apply list_elem_of_here.
           rewrite E0. by destruct (bool_decide _).
        -- destruct (decide (f ∈ rest)) as [Hin|Hout].
           ++ rewrite !bool_decide_eq_true_2; [reflexivity|by apply list_elem_of_further|done].
           ++ rewrite !bool_decide_eq_false_2; [reflexivity| |done].
              intros [?|?]%elem_of_cons; done.
      * rewrite Hhas. split.
        -- intros [Hh|(f & Hf & Hs)]; [by left|]. right. exists f.
           split; [by apply list_elem_of_further|done].
        -- intros [Hh|(f & [->|Hf]%elem_of_cons & Hs)]; [by left| |by eauto].
           rewrite E0 in Hs. by destruct Hs.
Qed.

Lemma collect_inl (fields : list string) (body updates : gmap string jval) (has : bool)
    (r : Response) :
  progressController.collect fields body updates has = inl r →
  ∃ pre f post v,
    fields = (pre ++ f :: post)%list ∧
    (∀ g, g ∈ pre → absent_or_number body g) ∧
    body !! f = Some v ∧ (∀ n, v ≠ JNum n) ∧ r = invalid_type f.
Proof.
  revert updates has. induction fields as [|f0 rest IH]; intros updates has; [discriminate|].
  cbn [progressController.collect].
  destruct (body !! f0) as [v0|] eqn:E0.
  - destruct v0 as [|b|n|t];
      try (intros [= <-]; exists [], f0, rest; eexists;
           split; [reflexivity|]; split; [by intros g Hg%elem_of_nil|];
           split; [exact E0|]; split; [discriminate|reflexivity]).
    intros Hc. destruct (IH _ _ Hc) as (pre & f & post & v & -> & Hpre & Hf & Hv & ->).
    exists (f0 :: pre), f, post, v. split; [reflexivity|]. split; [|done].
    intros g [->|Hg]%elem_of_cons; [right; eauto|by apply Hpre].
  - intros Hc. destruct (IH _ _ Hc) as (pre & f & post & v & -> & Hpre & Hf & Hv & ->).
    exists (f0 :: pre), f, post, v. split; [reflexivity|]. split; [|done].
    intros g [->|Hg]%elem_of_cons; [by left|by apply Hpre].
Qed.

(** X21: [updateProgress] sends the store the allowed fields of the
    body and nothing else. When the check passes, [updates] is not empty,
    holds exactly the body's values at [current_level], [level_xp],
    [streak] and [xp] (so no [user_id] or other key of the body gets
    through), and every value is a number. When it fails the answer is
    400: for the first allowed field (in that order) that is present and
    not a number, naming it; or, with none of the four present, asking
    for at least one. *)
Theorem updateProgress_takes_allowed_numbers (body : gmap string jval) :
  match progressController.updateProgress_updates body with
  | inr updates =>
      updates ≠ ∅ ∧
      (∀ f, updates !! f =
              if bool_decide (f ∈ progressController.allowed) then body !! f else None) ∧
      (∀ f v, updates !! f = Some v → ∃ n, v = JNum n)
  | inl r =>
      status r = 400%Z ∧
      ((∃ pre f post v,
          progressController.allowed = (pre ++ f :: post)%list ∧
          (∀ g, g ∈ pre → absent_or_number body g) ∧
          body !! f = Some v ∧ (∀ n, v ≠ JNum n) ∧ r = invalid_type f)
       ∨ ((∀ f, f ∈ progressController.allowed → body !! f = None) ∧ r = no_valid_fields))
  end.
Proof.
  unfold progressController.updateProgress_updates.
  destruct (progressController.collect progressController.allowed body ∅ false)
    as [r|[updates has]] eqn:Hc.
  - apply collect_inl in Hc as (pre & f & post & v & Ha & Hpre & Hf & Hv & ->).
    split; [reflexivity|]. left. exists pre, f, post, v. done.
  - apply collect_inr in Hc as (Hnum & Hlook & Hhas).
    assert (Hl : ∀ f, updates !! f =
                   if bool_decide (f ∈ progressController.allowed) then body !! f else None).
    { intros f. rewrite (Hlook f), lookup_empty. by destruct (body !! f). }
    destruct has; cbn [negb].
    + destruct (proj1 Hhas eq_refl) as [?|(f & Hf & [v Hv])]; [done|].
      split; [|split; [exact Hl|]].
      * intros ->. specialize (Hl f). rewrite lookup_empty, bool_decide_eq_true_2, Hv in Hl by done.
        discriminate.
      * intros g v' Hg. rewrite Hl in Hg.
        destruct (decide (g ∈ progressController.allowed)) as [Hin|Hout].
        -- rewrite bool_decide_eq_true_2 in Hg by done.
           destruct (Hnum g Hin) as [Hn|[n Hn]]; rewrite Hn in Hg; [discriminate|].
           injection Hg as <-. eauto.
        -- rewrite bool_decide_eq_false_2 in Hg by done. discriminate.
    + split; [reflexivity|]. right. split; [|reflexivity].
      intros f Hf. destruct (body !! f) as [v|] eqn:Hv; [|reflexivity].
      assert (false = true); [|discriminate]. apply Hhas. right. exists f. rewrite Hv. eauto.
Qed.

(** X22: [createProgress] stores 0 for an absent field and refuses
    anything that is present and not a number. The four numbers it
    inserts (and stores again as [progress_vector]) are, field by field
    in the order [current_level], [level_xp], [streak], [xp], the body's
    number or 0 when the body lacks the field; the check passes exactly
    when every field is absent or a number, so an explicit [null] is
    answered 400 where a missing key is not. An empty body is accepted
    and stores four zeros. *)
Theorem createProgress_defaults_absent_fields (body : gmap string jval) :
  (∀ xs, progressController.createProgress_fields body = inr xs ↔
     Forall2 (fun f x => body !! f = Some (JNum x) ∨ (body !! f = None ∧ x = 0%Z))
       ["current_level"; "level_xp"; "streak"; "xp"] xs) ∧
  (∀ r, progressController.createProgress_fields body = inl r → r = invalid_or_missing) ∧
  (∀ f, f ∈ ["current_level"; "level_xp"; "streak"; "xp"] → body !! f = Some JNull →
     progressController.createProgress_fields body = inl invalid_or_missing).
Proof.
  unfold progressController.createProgress_fields, progressController.field_or_zero.
  split; [|split].
  - intros xs. split.
    + intros Hc.
      destruct (body !! "current_level") as [[| |a|]|] eqn:Ea; try discriminate;
        (destruct (body !! "level_xp") as [[| |b|]|] eqn:Eb; try discriminate);
        (destruct (body !! "streak") as [[| |c|]|] eqn:Ec; try discriminate);
        (destruct (body !! "xp") as [[| |d|]|] eqn:Ed; try discriminate);
        cbn in Hc; injection Hc as <-;
        repeat (constructor; [first [by left | by right]|]); constructor.
    + intros Hf.
      apply Forall2_cons_inv_l in Hf as (a & xs1 & Ha & Hf & ->).
      apply Forall2_cons_inv_l in Hf as (b & xs2 & Hb & Hf & ->).
      apply Forall2_cons_inv_l in Hf as (c & xs3 & Hc & Hf & ->).
      apply Forall2_cons_inv_l in Hf as (d & xs4 & Hd & Hf & ->).
      apply Forall2_nil_inv_l in Hf as ->.
      destruct Ha as [->|[-> ->]], Hb as [->|[-> ->]], Hc as [->|[-> ->]],
        Hd as [->|[-> ->]]; reflexivity.
  - intros r. repeat case_match; intros [= <-]; reflexivity.
  - intros f Hf Hn. repeat (apply elem_of_cons in Hf as [->|Hf]); [| | | |by apply elem_of_nil in Hf];
      rewrite Hn; cbn; repeat case_match; reflexivity.
Qed.

Lemma counting_answers (code : Z) : answers (counting code).
Proof. intros w req n. eexists _, _. reflexivity. Qed.

(** * Worked requests

    The theorems above at concrete requests, run on the small
    implementations of the interfaces. *)

Import Reference.

(** C7, the claim as written fails: with the access secret set and no
    refresh secret, start-up goes through. *)
Lemma startup_without_refresh_secret :
  let env : gmap string string := {[ "JWT_SECRET" := "s3cret" ]} in
  env !! "REFRESH_SECRET" = None ∧ index.startup env = Ok tt.
Proof. split; reflexivity. Qed.

(** The theorems at work. *)
Lemma access_token_roundtrip_witness :
  ∃ tok claims,
    token.generateAccessToken example_world (identity_obj "u1" "a@x.com" false) = Ok tok ∧
    jwt.verify tok (authMiddleware.JWT_SECRET (process_env example_world)) 1899
      = Ok claims ∧
    claims !! "id" = Some (JStr "u1") ∧
    claims !! "email" = Some (JStr "a@x.com") ∧
    claims !! "is_admin" = Some (JBool false) ∧
    ∀ w' req,
      process_env w' = process_env example_world → clock w' = 1899%Z →
      authorization req = Some ("Bearer " ++ tok) →
      authMiddleware.authenticate w' req = Next (set_user claims req).
Proof.
  apply (access_token_roundtrip example_world "u1" "a@x.com" false 1899).
  - reflexivity.
  - simpl. lia.
Defined.

Lemma refresh_token_rejected_as_bearer_witness :
  ∃ tok,
    token.generateRefreshToken two_secret_world {[ "id" := JStr "u1" ]} = Ok tok ∧
    ∀ w' req users,
      process_env w' = process_env two_secret_world →
      authorization req = Some ("Bearer " ++ tok) →
      (∃ m, jwt.verify tok (authMiddleware.JWT_SECRET (process_env w')) (clock w')
            = Throw m) ∧
      authMiddleware.authenticate w' req = Respond invalid_token ∧
      (authRoute.is_public req = false →
       authRoute.handle w' req users = (Respond invalid_token, users)).
Proof.
  apply (refresh_token_rejected_as_bearer two_secret_world "u1" "r3fresh").
  - reflexivity.
  - reflexivity.
  - discriminate.
  - discriminate.
Defined.

(** C2, the claim as written fails: with no refresh secret configured,
    the refresh token issued for [id = u1] passes the gate as a bearer
    token; the request is not answered 403. *)
Lemma refresh_token_accepted_as_bearer :
  let tok := jws_sign "s3cret" (refresh_claims "u1" 1000) in
  let req := bearer_request "GET" ["users"] tok in
  index.startup (process_env example_world) = Ok tt ∧
  token.generateRefreshToken example_world {[ "id" := JStr "u1" ]} = Ok tok ∧
  authMiddleware.authenticate example_world req
    = Next (set_user (refresh_claims "u1" 1000) req) ∧
  authMiddleware.authenticate example_world req ≠ Respond invalid_token.
Proof.
  intros tok req.
  assert (Hs : index.startup (process_env example_world) = Ok tt) by reflexivity.
  assert (Hg : token.generateRefreshToken example_world {[ "id" := JStr "u1" ]} = Ok tok).
  { apply generateRefreshToken_plain; [reflexivity|discriminate]. }
  assert (Ha : authMiddleware.authenticate example_world req
               = Next (set_user (refresh_claims "u1" 1000) req)).
  { apply (refresh_token_passes_gate_on_shared_secret example_world example_world req "u1" tok);
      (reflexivity || assumption). }
  repeat split; try assumption. rewrite Ha. discriminate.
Qed.

(** The gate takes an access token of the sample server until it
    expires. *)
Lemma access_token_for_accepted (uid mail : string) (admin : bool) (issued now : Z)
    (req : Request) :
  (now < issued + 900)%Z →
  authorization req = Some ("Bearer " ++ access_token_for uid mail admin issued) →
  authMiddleware.authenticate (at_time now) req
  = Next (set_user (jwt.stamped (identity_obj uid mail admin) 900 issued) req).
Proof.
  intros Hlt Hh.
  rewrite (authenticate_bearer _ req _ Hh); try apply jws_sign_compact.
  change (authMiddleware.JWT_SECRET (process_env (at_time now))) with (Some "s3cret").
  unfold access_token_for.
  rewrite verify_signed; [reflexivity|discriminate|reflexivity|exact Hlt].
Qed.

Lemma login_rejection_reveals_account_witness :
  let req1 := json_request "POST" ["login"]
                {[ "email" := JStr "a@x.com"; "password" := JNum 12345 ]} in
  let req2 := json_request "POST" ["login"]
                {[ "email" := JStr "nobody@x.com"; "password" := JNum 12345 ]} in
  fst (authRoute.handle example_world req1 [alice])
    = Respond (authController.internal_error "data and hash must be strings") ∧
  fst (authRoute.handle example_world req2 [alice]) = Respond invalid_credentials ∧
  status (authController.internal_error "data and hash must be strings") = 500%Z ∧
  status invalid_credentials = 401%Z.
Proof.
  intros req1 req2.
  destruct (login_rejection_reveals_account example_world example_world req1 req2
              [alice] [alice] alice "nobody@x.com" (JNum 12345)) as (_ & _ & Hthrow).
  - apply NoDup_singleton.
  - apply list_elem_of_singleton. reflexivity.
  - reflexivity.
  - discriminate.
  - reflexivity.
  - reflexivity.
  - discriminate.
  - reflexivity.
  - repeat constructor. discriminate.
  - reflexivity.
  - destruct Hthrow as (m & Hl & _ & _ & _ & Hroute); [discriminate|].
    assert (Hm : m = "data and hash must be strings").
    { assert (Hc : authController.login example_world req1 [alice]
                   = (Respond (authController.internal_error
                                 "data and hash must be strings"), [alice]))
        by reflexivity.
      rewrite Hc in Hl. by injection Hl. }
    subst m. destruct Hroute as [H1 H2]; try reflexivity.
    repeat split; assumption.
Defined.

Lemma register_takes_is_admin_from_body_witness :
  let req := json_request "POST" ["register"]
               {[ "email" := JStr "root@x.com"; "password" := JStr "p";
                  "is_admin" := JBool true ]} in
  let req' := json_request "POST" ["register"]
                {[ "email" := JStr "root@x.com"; "password" := JStr "p";
                   "is_admin" := JStr "true" ]} in
  (∃ row accessToken refreshToken claims,
     authRoute.handle example_world req [alice]
       = (Respond (created example_world accessToken refreshToken), [alice; row]) ∧
     types.is_admin row = true ∧
     jwt.verify accessToken (Some "s3cret") 1000 = Ok claims ∧
     claims !! "is_admin" = Some (JBool true) ∧
     authMiddleware.requireAdmin (set_user claims req) = Next (set_user claims req)) ∧
  (∃ row accessToken refreshToken claims,
     authRoute.handle example_world req' [alice]
       = (Respond (created example_world accessToken refreshToken), [alice; row]) ∧
     types.is_admin row = false ∧
     jwt.verify accessToken (Some "s3cret") 1000 = Ok claims ∧
     claims !! "is_admin" = Some (JBool false)).
Proof.
  intros req req'. split.
  - destruct (register_takes_is_admin_from_body example_world req [alice]
                "root@x.com" "$2b$10$p")
      as (row & accessToken & refreshToken & claims & Hh & _ & _ & _ & _ & _ & Hv & _ & Hadm).
    + reflexivity.
    + reflexivity.
    + reflexivity.
    + reflexivity.
    + reflexivity.
    + discriminate.
    + reflexivity.
    + repeat constructor. discriminate.
    + reflexivity.
    + destruct Hadm as (Hr & Hc & Hq); [reflexivity|].
      exists row, accessToken, refreshToken, claims. repeat split; assumption.
  - destruct (register_takes_is_admin_from_body example_world req' [alice]
                "root@x.com" "$2b$10$p")
      as (row & accessToken & refreshToken & claims & Hh & _ & _ & _ & _ & Hother & Hv & Hc & _).
    + reflexivity.
    + reflexivity.
    + reflexivity.
    + reflexivity.
    + reflexivity.
    + discriminate.
    + reflexivity.
    + repeat constructor. discriminate.
    + reflexivity.
    + assert (Hf : types.is_admin row = false).
      { apply (Hother (JStr "true")); [reflexivity|discriminate]. }
      rewrite Hf in Hc.
      exists row, accessToken, refreshToken, claims. repeat split; assumption.
Defined.

Lemma register_token_embeds_whole_row_witness :
  let req := json_request "POST" ["register"]
               {[ "email" := JStr "a@x.com"; "password" := JStr "p" ]} in
  ∃ accessToken refreshToken claims,
    fst (authController.register example_world req [])
      = Respond (created example_world accessToken refreshToken) ∧
    jwt.verify accessToken (Some "s3cret") 1000 = Ok claims ∧
    claims !! "password" = Some (JStr "$2b$10$p") ∧
    claims !! "exp" = Some (JNum 1900) ∧
    dom claims = ({[ "id"; "email"; "password"; "is_admin"; "created_at"; "iat"; "exp" ]}
                    : gset string).
Proof.
  intros req.
  destruct (register_token_embeds_whole_row example_world req [] "a@x.com" "$2b$10$p")
    as (accessToken & refreshToken & claims & Hr & Hv & Hp & _ & _ & He & Hd).
  - reflexivity.
  - reflexivity.
  - discriminate.
  - reflexivity.
  - constructor.
  - reflexivity.
  - exists accessToken, refreshToken, claims. repeat split; assumption.
Defined.

Lemma refresh_behind_gate_witness :
  let req := refresh_request (Some ("Bearer " ++ access_token_for "u1" "a@x.com" false 1500)) in
  ∃ accessToken claims r,
    authRoute.handle (at_time 2000) req [alice] = (Respond r, [alice]) ∧
    status r = 200%Z ∧
    res_body r = JObj [("accessToken", JVal (JStr accessToken))] ∧
    set_cookie r = None ∧
    token.generateAccessToken (at_time 2000) (row_obj alice) = Ok accessToken ∧
    jwt.verify accessToken (Some "s3cret") 2000 = Ok claims ∧
    claims !! "id" = Some (JStr "u1").
Proof.
  intros req.
  destruct (refresh_behind_gate example_world (at_time 2000) req [alice] "u1"
              (jws_sign "s3cret" (refresh_claims "u1" 1000)) alice) as [_ Hok].
  - reflexivity.
  - reflexivity.
  - apply generateRefreshToken_plain; [reflexivity|discriminate].
  - reflexivity.
  - reflexivity.
  - reflexivity.
  - reflexivity.
  - apply NoDup_singleton.
  - apply list_elem_of_singleton. reflexivity.
  - reflexivity.
  - destruct (Hok (jwt.stamped (identity_obj "u1" "a@x.com" false) 900 1500))
      as (accessToken & claims & r & Hh & Hs & Hb & Hc & Hg & Hv & Hi & _).
    + apply access_token_for_accepted; [reflexivity|reflexivity].
    + exists accessToken, claims, r. repeat split; assumption.
Defined.

(** C3, the claim as written fails: the refresh cookie is valid and
    unexpired, and the handler alone would answer it 200; sent to the
    endpoint without a bearer credential it is answered 401. *)
Lemma refresh_with_cookie_alone_unauthorized :
  let req := refresh_request None in
  token.generateRefreshToken example_world {[ "id" := JStr "u1" ]}
    = Ok (jws_sign "s3cret" (refresh_claims "u1" 1000)) ∧
  (∃ r, authController.refreshToken (at_time 2000) req [alice] = (Respond r, [alice]) ∧
        status r = 200%Z) ∧
  authRoute.handle (at_time 2000) req [alice] = (Respond unauthorized, [alice]) ∧
  status unauthorized = 401%Z.
Proof.
  intros req. split; [|split; [|split]].
  - apply generateRefreshToken_plain; [reflexivity|discriminate].
  - eexists. split.
    + apply (refreshToken_success (at_time 2000) req [alice] alice "s3cret" "s3cret" "u1" 1000);
        (reflexivity || discriminate).
    + reflexivity.
  - apply gate_refusal_is_final; [reflexivity|]. by apply authenticate_no_header.
  - reflexivity.
Qed.

Lemma deleteUser_ignores_route_parameter_witness :
  let req := bearer_request "DELETE" ["user"; "u1"]
               (access_token_for "u0" "root@x.com" true 1000) in
  ∃ e,
    authRoute.handle (at_time 1001) req [alice] =
      (Respond (json_response 500 [msg "Error deleting user"; ("error", JVal (JStr e))]),
       [alice]).
Proof.
  intros req.
  destruct (deleteUser_ignores_route_parameter (at_time 1001) req [alice] "u1"
              (jwt.stamped (identity_obj "u0" "root@x.com" true) 900 1000)) as (_ & _ & Hd).
  - reflexivity.
  - reflexivity.
  - discriminate.
  - apply access_token_for_accepted; reflexivity.
  - reflexivity.
  - exact Hd.
Defined.



(** ** Further worked requests *)

Lemma authenticate_reads_second_piece_witness :
  let tok := access_token_for "u1" "a@x.com" false 1000 in
  let req := {| method := "GET"; path := ["users"];
                authorization := Some ("Token" ++ " " ++ tok ++ " x");
                cookies := ∅; req_body := ∅; params := ∅; user := None |} in
  authMiddleware.authenticate (at_time 1001) req
  = Next (set_user (jwt.stamped (identity_obj "u1" "a@x.com" false) 900 1000) req).
Proof.
  intros tok req.
  destruct (authenticate_reads_second_piece (at_time 1001) req "Token" tok " x" eq_refl)
    as [Hok _].
  rewrite Hok.
  - change (authMiddleware.JWT_SECRET (process_env (at_time 1001))) with (Some "s3cret").
    unfold tok, access_token_for.
    rewrite verify_signed; [reflexivity|discriminate|reflexivity|reflexivity].
  - reflexivity.
  - apply jws_sign_compact.
  - apply jws_sign_compact.
  - right. by exists "x".
Defined.

Lemma users_listing_admin_only_witness :
  let req := bearer_request "GET" ["users"] (access_token_for "u0" "root@x.com" true 1000) in
  authRoute.handle (at_time 1001) req [alice] =
    (Respond {| status := 200; set_cookie := None;
                res_body := JArr (public_json <$> [alice]) |}, [alice]).
Proof.
  intros req.
  destruct (users_listing_admin_only (at_time 1001) req [alice]
              (jwt.stamped (identity_obj "u0" "root@x.com" true) 900 1000)) as [Hadm _].
  - reflexivity.
  - reflexivity.
  - apply access_token_for_accepted; reflexivity.
  - apply Hadm. reflexivity.
Defined.


Lemma deleteCurrentUser_removes_own_row_witness :
  let req := bearer_request "DELETE" ["user"] (access_token_for "u1" "a@x.com" false 1000) in
  ∃ users',
    authRoute.handle (at_time 1001) req [alice] = (Respond (user_deleted alice), users') ∧
    ∀ x, x ∈ users' ↔ x ∈ [alice] ∧ id x ≠ "u1".
Proof.
  intros req.
  destruct (deleteCurrentUser_removes_own_row (at_time 1001) req [alice]
              (jwt.stamped (identity_obj "u1" "a@x.com" false) 900 1000) "u1")
    as [Hfound _].
  - reflexivity.
  - reflexivity.
  - apply access_token_for_accepted; reflexivity.
  - reflexivity.
  - discriminate.
  - apply NoDup_singleton.
  - apply (Hfound alice); [apply list_elem_of_singleton|]; reflexivity.
Defined.

Lemma refresh_token_roundtrip_witness :
  ∃ tok,
    token.generateRefreshToken example_world {[ "id" := JStr "u1" ]} = Ok tok ∧
    token.verifyRefreshToken (at_time 2000) tok = Ok (refresh_claims "u1" 1000) ∧
    token.verifyRefreshToken (at_time 605800) tok = Throw "jwt expired".
Proof.
  destruct (refresh_token_roundtrip example_world (at_time 2000) {[ "id" := JStr "u1" ]} "u1")
    as (tok & Hg & _ & _ & Hok & _).
  - reflexivity.
  - reflexivity.
  - reflexivity.
  - destruct (refresh_token_roundtrip example_world (at_time 605800)
                {[ "id" := JStr "u1" ]} "u1") as (tok' & Hg' & _ & _ & _ & Hlate).
    + reflexivity.
    + reflexivity.
    + reflexivity.
    + exists tok. split; [exact Hg|]. split; [apply Hok; reflexivity|].
      assert (tok' = tok) as <- by congruence. apply Hlate. discriminate.
Defined.

Lemma deleted_account_cannot_refresh_witness :
  let del := bearer_request "DELETE" ["user"] (access_token_for "u1" "a@x.com" false 1000) in
  let users' := snd (authRoute.handle (at_time 1001) del [alice]) in
  (∃ r, authController.refreshToken (at_time 1001) (refresh_request None) [alice]
        = (Respond r, [alice]) ∧ status r = 200%Z) ∧
  authController.refreshToken (at_time 1001) (refresh_request None) users'
  = (Respond invalid_refresh_token, users').
Proof.
  intros del users'.
  destruct (deleted_account_cannot_refresh example_world (at_time 1001) (refresh_request None)
              del [alice] alice (jwt.stamped (identity_obj "u1" "a@x.com" false) 900 1000)
              "u1" (jws_sign "s3cret" (refresh_claims "u1" 1000)))
    as (Hbefore & _ & Hafter & _).
  - reflexivity.
  - reflexivity.
  - apply generateRefreshToken_plain; [reflexivity|discriminate].
  - reflexivity.
  - reflexivity.
  - apply NoDup_singleton.
  - apply list_elem_of_singleton. reflexivity.
  - reflexivity.
  - discriminate.
  - reflexivity.
  - reflexivity.
  - apply access_token_for_accepted; reflexivity.
  - reflexivity.
  - split; [exact Hbefore|exact Hafter].
Defined.

Lemma refresh_token_never_admin_witness :
  let tok := jws_sign "s3cret" (refresh_claims "u1" 1000) in
  token.generateRefreshToken example_world {[ "id" := JStr "u1" ]} = Ok tok ∧
  ∃ r, authRoute.handle (at_time 1001) (bearer_request "GET" ["users"] tok) [alice]
       = (Respond r, [alice]) ∧ status r = 403%Z.
Proof.
  intros tok.
  assert (Hg : token.generateRefreshToken example_world {[ "id" := JStr "u1" ]} = Ok tok).
  { apply generateRefreshToken_plain; [reflexivity|discriminate]. }
  split; [exact Hg|].
  apply (refresh_token_never_admin example_world (at_time 1001)
           (bearer_request "GET" ["users"] tok) [alice] "u1" tok "").
  - reflexivity.
  - reflexivity.
  - exact Hg.
  - reflexivity.
  - left. split; reflexivity.
Defined.

Lemma login_issues_tokens_witness :
  let req := json_request "POST" ["login"]
               {[ "email" := JStr "a@x.com"; "password" := JStr "right" ]} in
  ∃ accessToken refreshToken,
    authRoute.handle example_world req [alice]
      = (Respond (logged_in example_world alice accessToken refreshToken), [alice]) ∧
    accessToken ≠ refreshToken ∧
    token.verifyRefreshToken example_world refreshToken = Ok (refresh_claims "u1" 1000).
Proof.
  intros req.
  destruct (login_issues_tokens example_world req [alice] alice)
    as (accessToken & refreshToken & Hh & Hne & _ & _ & Hv).
  - reflexivity.
  - reflexivity.
  - reflexivity.
  - reflexivity.
  - apply NoDup_singleton.
  - apply list_elem_of_singleton. reflexivity.
  - reflexivity.
  - discriminate.
  - reflexivity.
  - reflexivity.
  - exists accessToken, refreshToken. repeat split; assumption.
Defined.

Lemma register_twice_conflict_witness :
  let req := json_request "POST" ["register"]
               {[ "email" := JStr "b@x.com"; "password" := JStr "p" ]} in
  let users' := snd (authRoute.handle example_world req [alice]) in
  length users' = 2%nat ∧
  authRoute.handle example_world req users' = (Respond user_exists, users').
Proof.
  intros req users'.
  destruct (register_twice_conflict example_world example_world req req [alice]
              "b@x.com" "$2b$10$p") as (_ & Hlen & Hagain).
  - reflexivity.
  - reflexivity.
  - reflexivity.
  - reflexivity.
  - reflexivity.
  - discriminate.
  - reflexivity.
  - repeat constructor. discriminate.
  - reflexivity.
  - reflexivity.
  - reflexivity.
  - reflexivity.
  - reflexivity.
  - reflexivity.
  - split; [exact Hlen|exact Hagain].
Defined.

Lemma register_then_login_witness :
  let req := json_request "POST" ["register"]
               {[ "email" := JStr "b@x.com"; "password" := JStr "p" ]} in
  let req2 := json_request "POST" ["login"]
                {[ "email" := JStr "b@x.com"; "password" := JStr "p" ]} in
  let users' := snd (authRoute.handle example_world req [alice]) in
  ∃ accessToken refreshToken claims,
    authRoute.handle (at_time 2000) req2 users'
      = (Respond (logged_in (at_time 2000)
                    (registered_row example_world "b@x.com" "$2b$10$p" false [alice])
                    accessToken refreshToken), users') ∧
    jwt.verify accessToken (Some "s3cret") 2000 = Ok claims ∧
    claims !! "email" = Some (JStr "b@x.com") ∧
    claims !! "is_admin" = Some (JBool false).
Proof.
  intros req req2 users'.
  destruct (register_then_login example_world (at_time 2000) req req2 [alice]
              "b@x.com" "$2b$10$p")
    as (accessToken & refreshToken & claims & Hh & Hv & _ & He & Ha).
  - reflexivity.
  - reflexivity.
  - reflexivity.
  - reflexivity.
  - reflexivity.
  - reflexivity.
  - discriminate.
  - reflexivity.
  - repeat constructor. discriminate.
  - reflexivity.
  - reflexivity.
  - reflexivity.
  - reflexivity.
  - reflexivity.
  - reflexivity.
  - reflexivity.
  - exists accessToken, refreshToken, claims. repeat split; assumption.
Defined.

Lemma emails_stay_unique_witness :
  let req := json_request "POST" ["register"]
               {[ "email" := JStr "a@x.com"; "password" := JStr "p" ]} in
  NoDup (types.email <$> [alice]) ∧
  NoDup (types.email <$> snd (authRoute.handle example_world req [alice])).
Proof.
  intros req.
  assert (Hnd : NoDup (types.email <$> [alice])) by apply NoDup_singleton.
  split; [exact Hnd|]. apply (emails_stay_unique example_world req [alice] Hnd).
Defined.

Lemma only_refresh_cookie_is_set_witness :
  let req := bearer_request "POST" ["logout"] (access_token_for "u1" "a@x.com" false 1000) in
  ∃ r c,
    fst (authRoute.handle (at_time 1001) req [alice]) = Respond r ∧
    set_cookie r = Some c ∧ c_value c = "" ∧
    refresh_cookie_only (at_time 1001) r.
Proof.
  intros req.
  assert (Hh : authRoute.handle (at_time 1001) req [alice]
               = authController.logout (at_time 1001) req [alice]).
  { unfold authController.logout.
    apply (handle_behind_gate (at_time 1001) req [alice] [alice]
             (jwt.stamped (identity_obj "u1" "a@x.com" false) 900 1000)).
    - reflexivity.
    - apply access_token_for_accepted; reflexivity.
    - reflexivity. }
  eexists _, _. split; [rewrite Hh; reflexivity|].
  split; [reflexivity|]. split; [reflexivity|].
  apply (only_refresh_cookie_is_set (at_time 1001) req [alice]).
  rewrite Hh. reflexivity.
Defined.

Lemma leaderboard_is_the_public_route_witness :
  progressRoute.handle (counting 200) (counting 201) (counting 200) (counting 200)
    (counting 200) (counting 200) example_world (json_request "HEAD" ["LeaderBoard"] ∅) 0%nat
  = (Respond (json_response 200 []), 1%nat) ∧
  progressRoute.handle (counting 200) (counting 201) (counting 200) (counting 200)
    (counting 200) (counting 200) example_world (json_request "GET" ["u1"] ∅) 0%nat
  = (Respond unauthorized, 0%nat).
Proof.
  destruct (leaderboard_is_the_public_route (counting 200) (counting 201) (counting 200)
              (counting 200) (counting 200) (counting 200) example_world
              (json_request "HEAD" ["LeaderBoard"] ∅) 0%nat (counting_answers 200))
    as [Hpub _].
  destruct (leaderboard_is_the_public_route (counting 200) (counting 201) (counting 200)
              (counting 200) (counting 200) (counting 200) example_world
              (json_request "GET" ["u1"] ∅) 0%nat (counting_answers 200)) as [_ Hgate].
  split.
  - rewrite Hpub; [reflexivity|by right|reflexivity].
  - apply Hgate; [|reflexivity]. intros [_ Hp]. discriminate.
Defined.


